(** * College voice assistant: the browser-side script, embedded and verified

    A shallow embedding of [frontend/script.js].  JavaScript strings are
    sequences of UTF-16 code units, values received from the backend are
    JSON values, and the script's functions are written in a small monad
    that threads the page state and carries JavaScript exceptions, so that
    [try]/[catch] and "does not throw" are statements about the model and
    not facts of typing. *)

From Stdlib Require Import ZArith List String Ascii Bool Lia DecimalString.
From Stdlib.Strings Require Byte.
Import ListNotations.

Set Implicit Arguments.
Set Warnings "-register-all".
Local Open Scope Z_scope.

(* ================================================================== *)
(** ** JavaScript strings *)
(* ================================================================== *)

Module JsString.

(** A JavaScript string: a list of UTF-16 code units. *)
Definition jsstring := list Z.

Definition code_unit (u : Z) : Prop := 0 <= u < 65536.
Definition code_point (c : Z) : Prop :=
  0 <= c < 1114112 /\ ~ (55296 <= c <= 57343).

(** UTF-16 encoding of one code point and of a text. *)
Definition utf16_units (c : Z) : list Z :=
  if c <? 65536 then [c]
  else [55296 + Z.shiftr (c - 65536) 10; 56320 + Z.land (c - 65536) 1023].

Definition utf16_encode (cps : list Z) : jsstring := flat_map utf16_units cps.

(** UTF-8 decoding, used only to read the literals of the script (the file
    is UTF-8) into code points. *)
Fixpoint utf8_decode (bs : list Z) : list Z :=
  match bs with
  | [] => []
  | b0 :: r0 =>
    if b0 <? 128 then b0 :: utf8_decode r0
    else match r0 with
    | [] => []
    | b1 :: r1 =>
      if b0 <? 224 then
        Z.lor (Z.shiftl (Z.land b0 31) 6) (Z.land b1 63) :: utf8_decode r1
      else match r1 with
      | [] => []
      | b2 :: r2 =>
        if b0 <? 240 then
          Z.lor (Z.shiftl (Z.land b0 15) 12)
                (Z.lor (Z.shiftl (Z.land b1 63) 6) (Z.land b2 63))
            :: utf8_decode r2
        else match r2 with
        | [] => []
        | b3 :: r3 =>
          Z.lor (Z.shiftl (Z.land b0 7) 18)
                (Z.lor (Z.shiftl (Z.land b1 63) 12)
                       (Z.lor (Z.shiftl (Z.land b2 63) 6) (Z.land b3 63)))
            :: utf8_decode r3
        end
      end
    end
  end.

Definition bytes_of (s : string) : list Z :=
  map (fun b => Z.of_N (Byte.to_N b)) (list_byte_of_string s).

(** A literal of the script. *)
Definition js (s : string) : jsstring := utf16_encode (utf8_decode (bytes_of s)).

(** [a === b] on strings. *)
Fixpoint jseqb (a b : jsstring) : bool :=
  match a, b with
  | [], [] => true
  | x :: a', y :: b' => (x =? y) && jseqb a' b'
  | _, _ => false
  end.

(** White space and line terminators, the code units [String.prototype.trim]
    strips. *)
Definition is_space (u : Z) : bool :=
  (u =? 9) || (u =? 10) || (u =? 11) || (u =? 12) || (u =? 13) || (u =? 32)
  || (u =? 160) || (u =? 5760) || ((8192 <=? u) && (u <=? 8202))
  || (u =? 8232) || (u =? 8233) || (u =? 8239) || (u =? 8287)
  || (u =? 12288) || (u =? 65279).

Fixpoint trimStart (s : jsstring) : jsstring :=
  match s with
  | [] => []
  | u :: r => if is_space u then trimStart r else s
  end.

Definition trim (s : jsstring) : jsstring := rev (trimStart (rev (trimStart s))).

(** [s.substring(0, n)]. *)
Definition substring0 (n : nat) (s : jsstring) : jsstring := firstn n s.

(** [s.split(sep)] for a one-unit separator: never empty. *)
Fixpoint split (sep : Z) (s : jsstring) : list jsstring :=
  match s with
  | [] => [[]]
  | u :: r =>
    if u =? sep then [] :: split sep r
    else match split sep r with
         | [] => [[u]]
         | p :: ps => (u :: p) :: ps
         end
  end.

(** The regular expression [/[\u0D00-\u0D7F]/], which has no [u] flag and so
    is matched against code units. *)
Definition malayalam_unit (u : Z) : bool := (3328 <=? u) && (u <=? 3455).
Definition matches_malayalam (s : jsstring) : bool := existsb malayalam_unit s.

(** Decimal rendering of an integer, as in a template literal. *)
Definition decimal (n : Z) : jsstring :=
  bytes_of (NilEmpty.string_of_int (Z.to_int n)).

End JsString.
Export JsString.

(* ================================================================== *)
(** ** Values, errors and the responses of the backend *)
(* ================================================================== *)

(** The values the script handles: what [JSON.parse] yields, and
    [undefined].  [JNum n] is the number [n]; the numbers of the model are
    the integers a double holds exactly with all its neighbours, those of
    magnitude up to 2^53 ([exact_value] below): fractions and larger
    numbers are not values of the model.  An object is the list of its own
    properties, each key once. *)
Inductive jsval : Type :=
| JUndefined
| JNull
| JBool (b : bool)
| JNum (n : Z)
| JStr (s : jsstring)
| JArr (xs : list jsval)
| JObj (props : list (jsstring * jsval)).

(** The string a template literal inserts for [v], when the conversion
    does not throw (see [template_throws]): an array is joined with commas,
    null and undefined elements left empty, and an object without a
    [toString] of its own is "[object Object]". *)
Fixpoint to_string (v : jsval) : jsstring :=
  match v with
  | JUndefined => js "undefined"
  | JNull => js "null"
  | JBool true => js "true"
  | JBool false => js "false"
  | JNum n => decimal n
  | JStr s => s
  | JArr xs =>
    (fix join (l : list jsval) : jsstring :=
       let item x := match x with
                     | JUndefined | JNull => []
                     | _ => to_string x
                     end in
       match l with
       | [] => []
       | [x] => item x
       | x :: r => item x ++ js "," ++ join r
       end) xs
  | JObj _ => js "[object Object]"
  end.

Fixpoint has_own (props : list (jsstring * jsval)) (k : jsstring) : bool :=
  match props with
  | [] => false
  | (k', _) :: r => jseqb k' k || has_own r k
  end.

(** Where [`${v}`] throws a TypeError: on an object with an own property
    [toString], which hides [Object.prototype.toString] and, coming from
    JSON, is never callable, and on an array that holds such an object at
    any depth, since [join] converts every element. *)
Fixpoint template_throws (v : jsval) : bool :=
  match v with
  | JObj props => has_own props (js "toString")
  | JArr xs =>
    (fix any (l : list jsval) : bool :=
       match l with
       | [] => false
       | x :: r => template_throws x || any r
       end) xs
  | _ => false
  end.

(** The values whose numbers are numbers of the model, at any depth of an
    array: for these [to_string] gives the digits JavaScript prints. *)
Fixpoint exact_value (v : jsval) : bool :=
  match v with
  | JNum n => Z.abs n <=? 9007199254740992
  | JArr xs =>
    (fix all (l : list jsval) : bool :=
       match l with
       | [] => true
       | x :: r => exact_value x && all r
       end) xs
  | _ => true
  end.

(** Truthiness, as tested by [if (v)], [v || d] and [v ? a : b]. *)
Definition truthy (v : jsval) : bool :=
  match v with
  | JUndefined | JNull => false
  | JBool b => b
  | JNum n => negb (n =? 0)
  | JStr s => match s with [] => false | _ => true end
  | JArr _ | JObj _ => true
  end.

(** [v === 'literal']. *)
Definition is_str (v : jsval) (s : jsstring) : bool :=
  match v with
  | JStr t => jseqb t s
  | _ => false
  end.

Fixpoint own_property (props : list (jsstring * jsval)) (k : jsstring) : jsval :=
  match props with
  | [] => JUndefined
  | (k', v) :: r => if jseqb k' k then v else own_property r k
  end.

(** An exception value: every value the script throws or receives as a
    rejection is an [Error] object with a name and a message. *)
Record JsError : Type := mkError { err_name : jsstring; err_message : jsstring }.

Definition TypeError (m : string) : JsError := mkError (js "TypeError") (js m).
Definition template_error : JsError :=
  TypeError "Cannot convert object to primitive value".
Definition InvalidStateError : JsError :=
  mkError (js "InvalidStateError") (js "recognition has already started").

(** How a statement or a promise completes. *)
Inductive Completion (A : Type) : Type :=
| Normal (a : A)
| Thrown (e : JsError).
Arguments Normal {A} a.
Arguments Thrown {A} e.

(** An HTTP response: [response.ok] is a function of the status, and
    [response.json()] settles with [json_body]. *)
Record Response : Type := mkResponse { status : Z; json_body : Completion jsval }.

Definition ok (r : Response) : bool := (200 <=? status r) && (status r <=? 299).

(** How a [fetch] settles: rejected with a transport error, or fulfilled
    with a response of any status. *)
Inductive FetchOutcome : Type :=
| Rejected (e : JsError)
| Fulfilled (r : Response).

Inductive Method := GET | POST.
Inductive Body : Type :=
| NoBody
| JsonBody (v : jsval)              (* JSON.stringify of v *)
| AudioForm (audio : list Z).       (* FormData with the field 'audio' *)

Record Request : Type := mkRequest { method : Method; url : jsstring; body : Body }.

Definition API_BASE_URL : jsstring := js "http://localhost:8000".

(* ================================================================== *)
(** ** The page *)
(* ================================================================== *)

Inductive Sender := user | bot | system.
Inductive LogType := info | error.

(** A [div.message] of the chat thread.  [malayalam_text] says that its
    class list holds 'malayalam-text'.  The time stamp, read from the clock,
    is left out. *)
Record MessageEl : Type := mkMessage {
  msg_sender : Sender;            (* className = `message ${sender}` *)
  msg_senderName : jsstring;
  msg_text : jsstring;
  malayalam_text : bool }.

Record LogEntry : Type := mkLog { log_type : LogType; log_message : jsstring }.

(** A [div.document-item]; the ML and Manglish rows are optional. *)
Record DocItem : Type := mkDoc {
  doc_number : nat;
  doc_en : jsstring;
  doc_ml : option jsstring;
  doc_manglish : option jsstring }.

Record FormFields : Type := mkForm {
  englishText : jsstring; malayalamText : jsstring; manglishText : jsstring }.

Inductive ConsoleLine : Type :=
| ConsoleError (label : jsstring) (e : jsstring)
| ConsoleWarn (label : jsstring)
| ConsoleLog (label : jsstring) (e : jsstring).

(** The [webkitSpeechRecognition] object: the script sets [lang]; [started]
    is the browser's own state of the object, set by an accepted [start()]
    and cleared when the session ends. *)
Record Recognition : Type := mkRecognition { lang : jsstring; started : bool }.

Record Utterance : Type := mkUtterance { utt_text : jsstring; utt_lang : jsstring }.

(** What the page is loaded into: the capabilities of the browser and the
    default values of the form ([index.html] is not part of the sources). *)
Record Host : Type := mkHost {
  has_webkitSpeechRecognition : bool;
  has_speechSynthesis : bool;
  form_defaults : FormFields }.

(** The script's globals, the parts of the document it touches, and what
    the environment has seen of it. *)
Record World : Type := mkWorld {
  currentLanguage : jsval;
  isRecording : bool;
  recognition : option Recognition;     (* null when unsupported *)
  recorders : nat;                      (* MediaRecorders that are recording *)
  inputValue : jsstring;                (* messageInput.value *)
  placeholder : jsstring;               (* messageInput.placeholder *)
  listening : bool;                     (* voiceBtn 'listening', voiceStatus shown *)
  voiceBtn_disabled : bool;
  chatMessages : list MessageEl;
  logsContainer : list LogEntry;
  documentsList : list DocItem;
  form : FormFields;
  modalOpen : bool;                     (* adminModal.style.display = 'flex' *)
  activeTab : jsval;
  requests : list Request;              (* every fetch issued, in order *)
  alerts : list jsstring;
  console : list ConsoleLine;
  played : list jsstring;               (* responseAudio.src at each play() *)
  spoken : list Utterance;              (* speechSynthesis.speak *)
  timers : nat;                         (* pending setTimeout(sendMessage, 500) *)
  unhandled : list JsError }.           (* rejections nobody awaits *)

Definition set_currentLanguage x w := mkWorld x (isRecording w) (recognition w) (recorders w) (inputValue w) (placeholder w) (listening w) (voiceBtn_disabled w) (chatMessages w) (logsContainer w) (documentsList w) (form w) (modalOpen w) (activeTab w) (requests w) (alerts w) (console w) (played w) (spoken w) (timers w) (unhandled w).
Definition set_isRecording x w := mkWorld (currentLanguage w) x (recognition w) (recorders w) (inputValue w) (placeholder w) (listening w) (voiceBtn_disabled w) (chatMessages w) (logsContainer w) (documentsList w) (form w) (modalOpen w) (activeTab w) (requests w) (alerts w) (console w) (played w) (spoken w) (timers w) (unhandled w).
Definition set_recognition x w := mkWorld (currentLanguage w) (isRecording w) x (recorders w) (inputValue w) (placeholder w) (listening w) (voiceBtn_disabled w) (chatMessages w) (logsContainer w) (documentsList w) (form w) (modalOpen w) (activeTab w) (requests w) (alerts w) (console w) (played w) (spoken w) (timers w) (unhandled w).
Definition set_recorders x w := mkWorld (currentLanguage w) (isRecording w) (recognition w) x (inputValue w) (placeholder w) (listening w) (voiceBtn_disabled w) (chatMessages w) (logsContainer w) (documentsList w) (form w) (modalOpen w) (activeTab w) (requests w) (alerts w) (console w) (played w) (spoken w) (timers w) (unhandled w).
Definition set_inputValue x w := mkWorld (currentLanguage w) (isRecording w) (recognition w) (recorders w) x (placeholder w) (listening w) (voiceBtn_disabled w) (chatMessages w) (logsContainer w) (documentsList w) (form w) (modalOpen w) (activeTab w) (requests w) (alerts w) (console w) (played w) (spoken w) (timers w) (unhandled w).
Definition set_placeholder x w := mkWorld (currentLanguage w) (isRecording w) (recognition w) (recorders w) (inputValue w) x (listening w) (voiceBtn_disabled w) (chatMessages w) (logsContainer w) (documentsList w) (form w) (modalOpen w) (activeTab w) (requests w) (alerts w) (console w) (played w) (spoken w) (timers w) (unhandled w).
Definition set_listening x w := mkWorld (currentLanguage w) (isRecording w) (recognition w) (recorders w) (inputValue w) (placeholder w) x (voiceBtn_disabled w) (chatMessages w) (logsContainer w) (documentsList w) (form w) (modalOpen w) (activeTab w) (requests w) (alerts w) (console w) (played w) (spoken w) (timers w) (unhandled w).
Definition set_voiceBtn_disabled x w := mkWorld (currentLanguage w) (isRecording w) (recognition w) (recorders w) (inputValue w) (placeholder w) (listening w) x (chatMessages w) (logsContainer w) (documentsList w) (form w) (modalOpen w) (activeTab w) (requests w) (alerts w) (console w) (played w) (spoken w) (timers w) (unhandled w).
Definition set_chatMessages x w := mkWorld (currentLanguage w) (isRecording w) (recognition w) (recorders w) (inputValue w) (placeholder w) (listening w) (voiceBtn_disabled w) x (logsContainer w) (documentsList w) (form w) (modalOpen w) (activeTab w) (requests w) (alerts w) (console w) (played w) (spoken w) (timers w) (unhandled w).
Definition set_logsContainer x w := mkWorld (currentLanguage w) (isRecording w) (recognition w) (recorders w) (inputValue w) (placeholder w) (listening w) (voiceBtn_disabled w) (chatMessages w) x (documentsList w) (form w) (modalOpen w) (activeTab w) (requests w) (alerts w) (console w) (played w) (spoken w) (timers w) (unhandled w).
Definition set_documentsList x w := mkWorld (currentLanguage w) (isRecording w) (recognition w) (recorders w) (inputValue w) (placeholder w) (listening w) (voiceBtn_disabled w) (chatMessages w) (logsContainer w) x (form w) (modalOpen w) (activeTab w) (requests w) (alerts w) (console w) (played w) (spoken w) (timers w) (unhandled w).
Definition set_form x w := mkWorld (currentLanguage w) (isRecording w) (recognition w) (recorders w) (inputValue w) (placeholder w) (listening w) (voiceBtn_disabled w) (chatMessages w) (logsContainer w) (documentsList w) x (modalOpen w) (activeTab w) (requests w) (alerts w) (console w) (played w) (spoken w) (timers w) (unhandled w).
Definition set_modalOpen x w := mkWorld (currentLanguage w) (isRecording w) (recognition w) (recorders w) (inputValue w) (placeholder w) (listening w) (voiceBtn_disabled w) (chatMessages w) (logsContainer w) (documentsList w) (form w) x (activeTab w) (requests w) (alerts w) (console w) (played w) (spoken w) (timers w) (unhandled w).
Definition set_activeTab x w := mkWorld (currentLanguage w) (isRecording w) (recognition w) (recorders w) (inputValue w) (placeholder w) (listening w) (voiceBtn_disabled w) (chatMessages w) (logsContainer w) (documentsList w) (form w) (modalOpen w) x (requests w) (alerts w) (console w) (played w) (spoken w) (timers w) (unhandled w).
Definition set_requests x w := mkWorld (currentLanguage w) (isRecording w) (recognition w) (recorders w) (inputValue w) (placeholder w) (listening w) (voiceBtn_disabled w) (chatMessages w) (logsContainer w) (documentsList w) (form w) (modalOpen w) (activeTab w) x (alerts w) (console w) (played w) (spoken w) (timers w) (unhandled w).
Definition set_alerts x w := mkWorld (currentLanguage w) (isRecording w) (recognition w) (recorders w) (inputValue w) (placeholder w) (listening w) (voiceBtn_disabled w) (chatMessages w) (logsContainer w) (documentsList w) (form w) (modalOpen w) (activeTab w) (requests w) x (console w) (played w) (spoken w) (timers w) (unhandled w).
Definition set_console x w := mkWorld (currentLanguage w) (isRecording w) (recognition w) (recorders w) (inputValue w) (placeholder w) (listening w) (voiceBtn_disabled w) (chatMessages w) (logsContainer w) (documentsList w) (form w) (modalOpen w) (activeTab w) (requests w) (alerts w) x (played w) (spoken w) (timers w) (unhandled w).
Definition set_played x w := mkWorld (currentLanguage w) (isRecording w) (recognition w) (recorders w) (inputValue w) (placeholder w) (listening w) (voiceBtn_disabled w) (chatMessages w) (logsContainer w) (documentsList w) (form w) (modalOpen w) (activeTab w) (requests w) (alerts w) (console w) x (spoken w) (timers w) (unhandled w).
Definition set_spoken x w := mkWorld (currentLanguage w) (isRecording w) (recognition w) (recorders w) (inputValue w) (placeholder w) (listening w) (voiceBtn_disabled w) (chatMessages w) (logsContainer w) (documentsList w) (form w) (modalOpen w) (activeTab w) (requests w) (alerts w) (console w) (played w) x (timers w) (unhandled w).
Definition set_timers x w := mkWorld (currentLanguage w) (isRecording w) (recognition w) (recorders w) (inputValue w) (placeholder w) (listening w) (voiceBtn_disabled w) (chatMessages w) (logsContainer w) (documentsList w) (form w) (modalOpen w) (activeTab w) (requests w) (alerts w) (console w) (played w) (spoken w) x (unhandled w).
Definition set_unhandled x w := mkWorld (currentLanguage w) (isRecording w) (recognition w) (recorders w) (inputValue w) (placeholder w) (listening w) (voiceBtn_disabled w) (chatMessages w) (logsContainer w) (documentsList w) (form w) (modalOpen w) (activeTab w) (requests w) (alerts w) (console w) (played w) (spoken w) (timers w) x.

(* ================================================================== *)
(** ** The monad of the script: state and exceptions *)
(* ================================================================== *)

(** A computation runs from a world and completes normally or by a throw;
    the changes made before a throw remain. *)
Definition Js (A : Type) : Type := World -> Completion A * World.

Definition ret {A} (a : A) : Js A := fun w => (Normal a, w).

Definition bind {A B} (m : Js A) (k : A -> Js B) : Js B :=
  fun w => match m w with
           | (Normal a, w') => k a w'
           | (Thrown e, w') => (Thrown e, w')
           end.

Definition throw {A} (e : JsError) : Js A := fun w => (Thrown e, w).

Definition try_catch {A} (m : Js A) (handler : JsError -> Js A) : Js A :=
  fun w => match m w with
           | (Normal a, w') => (Normal a, w')
           | (Thrown e, w') => handler e w'
           end.

Definition gets {A} (f : World -> A) : Js A := fun w => (Normal (f w), w).
Definition modify (f : World -> World) : Js unit := fun w => (Normal tt, f w).

(** [await p], for a promise that settles with [c]. *)
Definition await {A} (c : Completion A) : Js A := fun w => (c, w).

(** A call of an async function whose promise is dropped: the caller goes
    on, and a rejection would be nobody's. *)
Definition spawn (m : Js unit) : Js unit :=
  fun w => match m w with
           | (Normal _, w') => (Normal tt, w')
           | (Thrown e, w') => (Normal tt, set_unhandled (unhandled w' ++ [e]) w')
           end.

Declare Scope js_scope.
Delimit Scope js_scope with js.
Notation "x <- m ;; k" := (bind m (fun x => k))
  (at level 61, m at next level, right associativity) : js_scope.
Notation "m ;; k" := (bind m (fun _ => k))
  (at level 61, right associativity) : js_scope.
Local Open Scope js_scope.

Definition run {A} (m : Js A) (w : World) : World := snd (m w).
Definition result {A} (m : Js A) (w : World) : Completion A := fst (m w).

(** *** Primitive operations on values *)

(** [`${v}`] as the script evaluates it. *)
Definition template (v : jsval) : Js jsstring :=
  if template_throws v then throw template_error else ret (to_string v).

(** [v.k]: throws on [undefined] and [null]; a primitive or an array has
    none of the properties the script reads.  The message of a TypeError is
    the engine's own; the texts given here stand for it. *)
Definition get_prop (v : jsval) (k : string) : Js jsval :=
  match v with
  | JUndefined | JNull => throw (TypeError "Cannot read properties of undefined or null")
  | JObj props => ret (own_property props (js k))
  | _ => ret JUndefined
  end.

(** The receiver of a call [v.match(..)], [v.split(..)], [v.substring(..)]:
    only a string has these methods. *)
Definition string_receiver (v : jsval) : Js jsstring :=
  match v with
  | JStr s => ret s
  | JUndefined | JNull => throw (TypeError "Cannot read properties of undefined or null")
  | _ => throw (TypeError "is not a function")
  end.

(** The receiver of [v.forEach(..)] and [v.length]: only an array. *)
Definition array_receiver (v : jsval) : Js (list jsval) :=
  match v with
  | JArr xs => ret xs
  | JUndefined | JNull => throw (TypeError "Cannot read properties of undefined or null")
  | _ => throw (TypeError "is not a function")
  end.

(** *** Primitive operations on the environment *)

Definition fetch (rq : Request) (o : FetchOutcome) : Js Response :=
  modify (fun w => set_requests (requests w ++ [rq]) w) ;;
  match o with
  | Rejected e => throw e
  | Fulfilled r => ret r
  end.

Definition response_json (r : Response) : Js jsval := await (json_body r).

Definition console_error (label : string) (e : JsError) : Js unit :=
  modify (fun w => set_console (console w ++ [ConsoleError (js label) (err_message e)]) w).
Definition console_warn (label : string) : Js unit :=
  modify (fun w => set_console (console w ++ [ConsoleWarn (js label)]) w).

Definition alert (m : jsstring) : Js unit :=
  modify (fun w => set_alerts (alerts w ++ [m]) w).

(** [responseAudio.src = src; responseAudio.play()]. *)
Definition play_audio (src : jsstring) : Js unit :=
  modify (fun w => set_played (played w ++ [src]) w).

(** [recognition.start()]: the browser refuses a second start of a started
    object with an InvalidStateError.  [recognition.stop()] only asks the
    session to finish; the state changes when [onend] fires. *)
Definition recognition_start (r : Recognition) : Js unit :=
  if started r then throw InvalidStateError
  else modify (set_recognition (Some (mkRecognition (lang r) true))).

Definition recognition_stop (r : Recognition) : Js unit := ret tt.

(* ================================================================== *)
(** ** The script *)
(* ================================================================== *)

Fixpoint update_last {A} (f : A -> A) (l : list A) : list A :=
  match l with
  | [] => []
  | [x] => [f x]
  | x :: r => x :: update_last f r
  end.

(** The two promise chains [DOMContentLoaded] starts run on the page in the
    order their responses arrive; [onDOMContentLoaded] below runs the one
    of the documents first, which fixes an order of their log entries that
    the page does not promise.

    An async function is written as the computation it performs when each
    promise it awaits settles the way its arguments say ([o : FetchOutcome]
    for a fetch and the body of its response, [mic] for [getUserMedia]).
    In every function of the script the writes made after the first [await]
    sit in one synchronous stretch, after the last promise has settled or
    in the [catch] block, so the computation is the effect of the call on
    the world at that moment.  A request that never settles is not a case
    of the model.  [initWebSocket] is not called by the script and is left
    out. *)

Section Script.

Variable host : Host.

Definition updateRecognitionLanguage : Js unit :=
  r <- gets recognition ;;
  match r with
  | None => ret tt
  | Some rec =>
    cur <- gets currentLanguage ;;
    if is_str cur (js "ml") then
      modify (set_recognition (Some (mkRecognition (js "ml-IN") (started rec))))
    else if is_str cur (js "manglish") then
      modify (set_recognition (Some (mkRecognition (js "en-IN") (started rec))))
    else
      modify (set_recognition (Some (mkRecognition (js "en-US") (started rec))))
  end.

Definition addMessage (sender : Sender) (text : jsval) : Js unit :=
  let senderName := match sender with user => js "You" | _ => js "Assistant" end in
  shown <- template text ;;
  let messageDiv := mkMessage sender senderName shown false in
  modify (fun w => set_chatMessages (chatMessages w ++ [messageDiv]) w) ;;
  s <- string_receiver text ;;
  if matches_malayalam s then
    modify (fun w => set_chatMessages
      (update_last (fun m => mkMessage (msg_sender m) (msg_senderName m) (msg_text m) true)
                   (chatMessages w)) w)
  else ret tt.

Definition logToSystem (message : jsstring) (type : LogType) : Js unit :=
  modify (fun w => set_logsContainer (logsContainer w ++ [mkLog type message]) w).

Definition speakText (text : jsstring) (language : jsval) : Js unit :=
  if has_speechSynthesis host then
    let l := if is_str language (js "ml") then js "ml-IN"
             else if is_str language (js "manglish") then js "en-IN"
             else js "en-US" in
    modify (fun w => set_spoken (spoken w ++ [mkUtterance text l]) w)
  else ret tt.

Definition sendMessage (o : FetchOutcome) : Js unit :=
  text <- gets (fun w => trim (inputValue w)) ;;
  match text with
  | [] => ret tt
  | _ =>
    addMessage user (JStr text) ;;
    modify (set_inputValue []) ;;
    try_catch
      (cur <- gets currentLanguage ;;
       response <- fetch (mkRequest POST (API_BASE_URL ++ js "/api/query")
                     (JsonBody (JObj [(js "text", JStr text);
                                      (js "language", if is_str cur (js "auto") then JNull else cur)]))) o ;;
       if negb (ok response) then
         throw (mkError (js "Error") (js "HTTP error! status: " ++ decimal (status response)))
       else
         data <- response_json response ;;
         answer <- get_prop data "answer" ;;
         addMessage bot answer ;;
         audio_url <- get_prop data "audio_url" ;;
         (if truthy audio_url then
            (src <- template audio_url ;; play_audio (API_BASE_URL ++ src))
          else (language <- get_prop data "language" ;;
                speakText (to_string answer) language)) ;;
         shown <- string_receiver answer ;;
         logToSystem (js "User query: " ++ [34] ++ text ++ [34] ++ js " -> Response: " ++ [34]
                      ++ substring0 50 shown ++ js "..." ++ [34]) info)
      (fun exn =>
         console_error "Error sending message:" exn ;;
         addMessage bot (JStr (js "Sorry, there was an error processing your request. Please try again.")) ;;
         logToSystem (js "Error: " ++ err_message exn) error)
  end.

Definition toggleVoiceRecording : Js unit :=
  r <- gets recognition ;;
  match r with
  | None => addMessage system (JStr (js "Voice recognition is not supported in your browser."))
  | Some rec =>
    recording <- gets isRecording ;;
    if recording then recognition_stop rec else recognition_start rec
  end.

(** The body of [data.documents.forEach((doc, index) => ...)]. *)
Definition part (textParts : list jsstring) (n : nat) : option jsstring :=
  match nth_error textParts n with
  | Some (u :: p) => Some (u :: p)
  | _ => None
  end.

Fixpoint forEach_document (docs : list jsval) (index : nat) : Js unit :=
  match docs with
  | [] => ret tt
  | doc :: rest =>
    text <- get_prop doc "text" ;;
    s <- string_receiver text ;;
    let textParts := map trim (split 124 s) in
    let docDiv := mkDoc (index + 1)
                        (match part textParts 0 with Some p => p | None => [] end)
                        (part textParts 1) (part textParts 2) in
    modify (fun w => set_documentsList (documentsList w ++ [docDiv]) w) ;;
    forEach_document rest (S index)
  end.

Definition loadDocuments (o : FetchOutcome) : Js unit :=
  try_catch
    (response <- fetch (mkRequest GET (API_BASE_URL ++ js "/api/documents") NoBody) o ;;
     data <- response_json response ;;
     modify (set_documentsList []) ;;
     documents <- get_prop data "documents" ;;
     docs <- array_receiver documents ;;
     forEach_document docs 0 ;;
     logToSystem (js "Loaded " ++ decimal (Z.of_nat (List.length docs))
                  ++ js " documents from knowledge base") info)
    (fun exn =>
       console_error "Error loading documents:" exn ;;
       logToSystem (js "Error loading documents: " ++ err_message exn) error).

(** [o] settles the POST; [o_list] settles the GET of the reload, whose
    promise [addDocument] does not await.  [manglish] is a string, so
    [manglish || ""] is [manglish]. *)
Definition addDocument (english malayalam manglish : jsstring)
                       (o o_list : FetchOutcome) : Js bool :=
  try_catch
    (response <- fetch (mkRequest POST (API_BASE_URL ++ js "/api/add-document")
                  (JsonBody (JObj [(js "english", JStr english);
                                   (js "malayalam", JStr malayalam);
                                   (js "manglish", JStr manglish)]))) o ;;
     if negb (ok response) then
       throw (mkError (js "Error") (js "HTTP error! status: " ++ decimal (status response)))
     else
       data <- response_json response ;;
       id <- get_prop data "id" ;;
       shown <- template id ;;
       addMessage system (JStr (js "✅ Document added successfully! ID: " ++ shown)) ;;
       logToSystem (js "Added new document: " ++ substring0 50 english ++ js "...") info ;;
       spawn (loadDocuments o_list) ;;
       ret true)
    (fun exn =>
       console_error "Error adding document:" exn ;;
       addMessage system (JStr (js "❌ Error adding document: " ++ err_message exn)) ;;
       logToSystem (js "Error adding document: " ++ err_message exn) error ;;
       ret false).

(** [getUserMedia] settles with [mic]; every call makes a new recorder. *)
Definition startMediaRecording (mic : Completion unit) : Js unit :=
  try_catch
    (await mic ;;
     modify (fun w => set_recorders (S (recorders w)) w) ;;
     modify (set_isRecording true) ;;
     modify (set_listening true))
    (fun exn =>
       console_error "Error accessing microphone:" exn ;;
       addMessage system (JStr (js "Microphone access denied. Please allow microphone permissions."))).

Definition sendAudioToBackend (audioBlob : list Z) (o : FetchOutcome) : Js unit :=
  try_catch
    (response <- fetch (mkRequest POST (API_BASE_URL ++ js "/api/voice-query")
                  (AudioForm audioBlob)) o ;;
     data <- response_json response ;;
     text <- get_prop data "text" ;;
     addMessage user text ;;
     answer <- get_prop data "answer" ;;
     addMessage bot answer ;;
     audio_url <- get_prop data "audio_url" ;;
     if truthy audio_url then
       (src <- template audio_url ;; play_audio (API_BASE_URL ++ src))
     else ret tt)
    (fun exn =>
       console_error "Error sending audio:" exn ;;
       addMessage bot (JStr (js "Error processing voice input"))).

(** *** Speech recognition: set-up and the handlers put on the object *)

Definition initSpeechRecognition : Js unit :=
  if has_webkitSpeechRecognition host then
    modify (set_recognition (Some (mkRecognition [] false))) ;;
    updateRecognitionLanguage
  else
    console_warn "Speech recognition not supported" ;;
    modify (set_voiceBtn_disabled true).

Definition recognition_onstart : Js unit :=
  modify (set_isRecording true) ;;
  modify (set_listening true) ;;
  addMessage system (JStr (js "Listening... Speak now!")).

Definition recognition_onresult (transcript : jsstring) : Js unit :=
  modify (set_inputValue transcript) ;;
  modify (fun w => set_timers (S (timers w)) w).

Definition recognition_onerror (code : jsstring) : Js unit :=
  console_error "Speech recognition error:" (mkError code code) ;;
  addMessage system (JStr (js "Speech recognition error: " ++ code)).

Definition recognition_onend : Js unit :=
  modify (set_isRecording false) ;;
  modify (set_listening false).

(** *** Event listeners *)

Definition onDOMContentLoaded (o_docs o_ping : FetchOutcome) : Js unit :=
  initSpeechRecognition ;;
  spawn (loadDocuments o_docs) ;;
  spawn (try_catch
           (response <- fetch (mkRequest GET (API_BASE_URL ++ js "/") NoBody) o_ping ;;
            data <- response_json response ;;
            message <- get_prop data "message" ;;
            shown <- template message ;;
            logToSystem (js "Backend connected: " ++ shown) info)
           (fun exn => logToSystem (js "Backend connection failed: " ++ err_message exn) error)).

(** A click on a language button with [data-lang] and label [textContent]. *)
Definition onLangClick (data_lang : jsval) (textContent : jsstring) : Js unit :=
  modify (set_currentLanguage data_lang) ;;
  updateRecognitionLanguage ;;
  cur <- gets currentLanguage ;;
  (if is_str cur (js "ml") then
     modify (set_placeholder (js "ഇവിടെ നിങ്ങളുടെ ചോദ്യം ടൈപ്പ് ചെയ്യുക... അല്ലെങ്കിൽ മൈക്കിൽ ക്ലിക്ക് ചെയ്ത് സംസാരിക്കുക"))
   else if is_str cur (js "manglish") then
     modify (set_placeholder (js "Type your question here... or click mic to speak in Manglish"))
   else
     modify (set_placeholder (js "Type your question here... or click the mic to speak"))) ;;
  addMessage system (JStr (js "Language set to: " ++ textContent)).

Definition onExampleClick (question : jsstring) (o : FetchOutcome) : Js unit :=
  modify (set_inputValue question) ;;
  spawn (sendMessage o).

Definition onTabClick (tabId : jsval) (o : FetchOutcome) : Js unit :=
  modify (set_activeTab tabId) ;;
  if is_str tabId (js "view-docs") then spawn (loadDocuments o) else ret tt.

Definition onFormSubmit (o o_list : FetchOutcome) : Js unit :=
  english <- gets (fun w => trim (englishText (form w))) ;;
  malayalam <- gets (fun w => trim (malayalamText (form w))) ;;
  manglish <- gets (fun w => trim (manglishText (form w))) ;;
  if negb (truthy (JStr english)) || negb (truthy (JStr malayalam)) then
    alert (js "Please fill in at least English and Malayalam versions")
  else
    success <- addDocument english malayalam manglish o o_list ;;
    if success then modify (set_form (form_defaults host)) else ret tt.

Definition onPrivacyClick : Js unit :=
  addMessage system (JStr (js "Privacy: All data is processed locally. Voice recordings are not stored.")).

Definition onAboutClick : Js unit :=
  addMessage system (JStr (js "College Voice Assistant v1.0 - Powered by Google Gemini AI with RAG architecture. Supports Malayalam, English & Manglish.")).

Definition onDocsClick (o : FetchOutcome) : Js unit :=
  modify (set_modalOpen true) ;;
  onTabClick (JStr (js "view-docs")) o.

(** *** The event loop *)

(** What can happen to the page once it is loaded: the listeners the script
    registers, the events of the recognition object, and the timer.  Each
    event carries what the environment decides: the attributes of the
    clicked element and how the requests it causes settle. *)
Inductive Event : Type :=
| LangClick (data_lang : jsval) (textContent : jsstring)
| SendClick (o : FetchOutcome)
| EnterKey (o : FetchOutcome)
| VoiceClick
| ExampleClick (question : jsstring) (o : FetchOutcome)
| AdminPanelClick
| CloseModalClick
| OutsideClick
| TabClick (tabId : jsval) (o : FetchOutcome)
| FormSubmit (o o_list : FetchOutcome)
| PrivacyClick
| AboutClick
| DocsClick (o : FetchOutcome)
| RecognitionStart
| RecognitionResult (transcript : jsstring)
| RecognitionError (code : jsstring)
| RecognitionEnd
| TimerFires (o : FetchOutcome).

Definition session_over : Js unit :=
  modify (fun w => match recognition w with
                   | Some r => set_recognition (Some (mkRecognition (lang r) false)) w
                   | None => w
                   end).

Definition handle (ev : Event) : Js unit :=
  match ev with
  | LangClick data_lang textContent => onLangClick data_lang textContent
  | SendClick o => spawn (sendMessage o)
  | EnterKey o => spawn (sendMessage o)
  | VoiceClick => toggleVoiceRecording
  | ExampleClick question o => onExampleClick question o
  | AdminPanelClick => modify (set_modalOpen true)
  | CloseModalClick => modify (set_modalOpen false)
  | OutsideClick => modify (set_modalOpen false)
  | TabClick tabId o => onTabClick tabId o
  | FormSubmit o o_list => spawn (onFormSubmit o o_list)
  | PrivacyClick => onPrivacyClick
  | AboutClick => onAboutClick
  | DocsClick o => onDocsClick o
  | RecognitionStart => recognition_onstart
  | RecognitionResult transcript => recognition_onresult transcript
  | RecognitionError code => recognition_onerror code
  | RecognitionEnd => session_over ;; recognition_onend
  | TimerFires o => modify (fun w => set_timers (pred (timers w)) w) ;; spawn (sendMessage o)
  end.

(** The browser fires the events of the recognition object only during a
    session, a timer only when one is pending, and no click on a disabled
    button. *)
Definition session_active (w : World) : bool :=
  match recognition w with
  | Some r => started r
  | None => false
  end.

Definition enabled (w : World) (ev : Event) : bool :=
  match ev with
  | VoiceClick => negb (voiceBtn_disabled w)
  | RecognitionStart | RecognitionResult _ | RecognitionError _ | RecognitionEnd =>
    session_active w
  | TimerFires _ => negb (Nat.eqb (timers w) 0)
  | _ => true
  end.

(** The state in which the script leaves its globals when it is evaluated. *)
Definition script_evaluated (w : World) : Prop :=
  currentLanguage w = JStr (js "auto") /\ isRecording w = false /\
  recognition w = None /\ recorders w = 0%nat /\ timers w = 0%nat.

Inductive reachable : World -> Prop :=
| reach_loaded w o_docs o_ping :
    script_evaluated w ->
    reachable (run (onDOMContentLoaded o_docs o_ping) w)
| reach_event w ev :
    reachable w -> enabled w ev = true ->
    reachable (run (handle ev) w).

(** Recognition and capture sessions that are active in a world. *)
Definition active_sessions (w : World) : nat :=
  ((if session_active w then 1 else 0) + recorders w)%nat.

End Script.

(** A page before the script runs, for the examples. *)
Definition blank_form : FormFields := mkForm [] [] [].
Definition blank_host : Host := mkHost true true blank_form.
Definition fresh_world : World :=
  mkWorld (JStr (js "auto")) false None 0 [] [] false false [] [] [] blank_form
          false JUndefined [] [] [] [] [] 0 [].

(* ================================================================== *)
(** ** Vocabulary of the statements *)
(* ================================================================== *)

(** A computation that leaves one observation of the world alone, however
    it completes. *)
Definition preserves {X A} (f : World -> X) (m : Js A) : Prop :=
  forall w, f (run m w) = f w.

(** How the text of a failure reads in the script: the message of the
    transport error, or the message of the [Error] thrown on a status that
    is not 2xx. *)
Definition failed (o : FetchOutcome) : Prop :=
  match o with
  | Rejected _ => True
  | Fulfilled r => ok r = false
  end.

Definition failure_text (o : FetchOutcome) : jsstring :=
  match o with
  | Rejected e => err_message e
  | Fulfilled r => js "HTTP error! status: " ++ decimal (status r)
  end.

Definition sender_name (s : Sender) : jsstring :=
  match s with
  | user => js "You"
  | _ => js "Assistant"
  end.

Definition sorry_text : jsstring :=
  js "Sorry, there was an error processing your request. Please try again.".

(** The code points of two texts: a Malayalam greeting and an ASCII answer
    ("9am-8pm"). *)
Definition namaskaram : list Z := [3368; 3374; 3384; 3405; 3349; 3390; 3376; 3330].
Definition opening_hours : list Z := [57; 97; 109; 45; 56; 112; 109].

Definition count_sender (s : Sender) (l : list MessageEl) : nat :=
  List.length (filter (fun m => match msg_sender m, s with
                                | user, user | bot, bot | system, system => true
                                | _, _ => false
                                end) l).

(** A computation that completes normally from every world. *)
Definition never_throws {A} (m : Js A) : Prop :=
  forall w, exists a, result m w = Normal a.

Definition documents_request : Request :=
  mkRequest GET (API_BASE_URL ++ js "/api/documents") NoBody.

(** The failures [loadDocuments] meets before it touches the list: the
    fetch is rejected, or the body of the response is not JSON. *)
Definition transport_failure (o : FetchOutcome) : option JsError :=
  match o with
  | Rejected e => Some e
  | Fulfilled r => match json_body r with
                   | Thrown e => Some e
                   | Normal _ => None
                   end
  end.

(** [data.documents], when it is an array. *)
Definition documents_array (data : jsval) : option (list jsval) :=
  match data with
  | JObj props => match own_property props (js "documents") with
                  | JArr xs => Some xs
                  | _ => None
                  end
  | _ => None
  end.

(** A response that lists one document, and the page once it is shown. *)
Definition one_document : FetchOutcome :=
  Fulfilled (mkResponse 200 (Normal (JObj
    [(js "documents", JArr [JObj [(js "text", JStr (js "Library hours | ലൈബ്രറി സമയം | library samayam"))]])]))).

Definition network_down : FetchOutcome :=
  Rejected (mkError (js "TypeError") (js "Failed to fetch")).

Definition page_with_document : World := run (loadDocuments one_document) fresh_world.

Definition add_request (english malayalam manglish : jsstring) : Request :=
  mkRequest POST (API_BASE_URL ++ js "/api/add-document")
    (JsonBody (JObj [(js "english", JStr english);
                     (js "malayalam", JStr malayalam);
                     (js "manglish", JStr manglish)])).

(** What the POST of [addDocument] comes to: the error the [catch] block
    receives, or the [id] read from the parsed body and inserted into the
    message. *)
Definition add_outcome (o : FetchOutcome) : JsError + jsval :=
  match o with
  | Rejected e => inl e
  | Fulfilled r =>
    if ok r then
      match json_body r with
      | Thrown e => inl e
      | Normal (JUndefined | JNull) =>
        inl (TypeError "Cannot read properties of undefined or null")
      | Normal (JObj props) =>
        if template_throws (own_property props (js "id")) then inl template_error
        else inr (own_property props (js "id"))
      | Normal _ => inr JUndefined
      end
    else inl (mkError (js "Error") (js "HTTP error! status: " ++ decimal (status r)))
  end.

Definition added_text (id : jsval) : jsstring :=
  js "✅ Document added successfully! ID: " ++ to_string id.
Definition add_error_text (e : JsError) : jsstring :=
  js "❌ Error adding document: " ++ err_message e.

(** Calls of listDocuments, seen as the GETs of the documents among the
    requests issued. *)
Definition is_documents_request (rq : Request) : bool :=
  match method rq with
  | GET => jseqb (url rq) (API_BASE_URL ++ js "/api/documents")
  | POST => false
  end.

Definition listDocuments_calls (rs : list Request) : nat :=
  List.length (filter is_documents_request rs).

Definition fill_message : jsstring :=
  js "Please fill in at least English and Malayalam versions".

Definition voice_error_text : jsstring := js "Error processing voice input".

(** The rule as the specification words it, for a failure with error [e]
    between the worlds [w] and [w']: a message is shown to the user, and
    the log gains one entry that carries the text of [e]. *)
Definition shows_message (w w' : World) : Prop :=
  exists m rest, chatMessages w' = chatMessages w ++ m :: rest.

Definition logs_error_text (e : JsError) (w w' : World) : Prop :=
  exists entry prefix,
    logsContainer w' = logsContainer w ++ [entry] /\
    log_message entry = prefix ++ err_message e.

(** The locale in the words of the specification. *)
Definition locale_of (language : jsval) : jsstring :=
  if is_str language (js "ml") then js "ml-IN"
  else if is_str language (js "manglish") then js "en-IN"
  else js "en-US".

(** Events whose handlers touch neither [isRecording] nor the recognition
    object. *)
Definition quiet (ev : Event) : bool :=
  match ev with
  | LangClick _ _ | VoiceClick | RecognitionStart | RecognitionEnd => false
  | _ => true
  end.

(** What holds of the sessions in every state the page can reach. *)
Definition session_invariant (w : World) : Prop :=
  recorders w = 0%nat /\ (isRecording w = true -> session_active w = true).

(** The page after it is loaded, the voice button is clicked and the
    recognition has announced its start. *)
Definition listening_page : World :=
  run (handle blank_host RecognitionStart)
    (run (handle blank_host VoiceClick)
       (run (onDOMContentLoaded blank_host network_down network_down) fresh_world)).

(* ================================================================== *)
(** ** Vocabulary of the further properties *)
(* ================================================================== *)

(** A computation that only appends to a list of the world, however it
    completes. *)
Definition extends {X A} (f : World -> list X) (m : Js A) : Prop :=
  forall w, exists new, f (run m w) = f w ++ new.

(** [v.k] as a value or a throw, without the world. *)
Definition property (v : jsval) (k : string) : Completion jsval :=
  match v with
  | JUndefined | JNull => Thrown (TypeError "Cannot read properties of undefined or null")
  | JObj props => Normal (own_property props (js k))
  | _ => Normal JUndefined
  end.

(** The exception of a call of a string method on a value that is not a
    string. *)
Definition not_a_string_error (v : jsval) : JsError :=
  match v with
  | JUndefined | JNull => TypeError "Cannot read properties of undefined or null"
  | _ => TypeError "is not a function"
  end.

Definition is_string (v : jsval) : bool :=
  match v with
  | JStr _ => true
  | _ => false
  end.

(** The request of [sendMessage] for a text, under a current language. *)
Definition query_request (text : jsstring) (cur : jsval) : Request :=
  mkRequest POST (API_BASE_URL ++ js "/api/query")
    (JsonBody (JObj [(js "text", JStr text);
                     (js "language", if is_str cur (js "auto") then JNull else cur)])).

Definition query_log (text answer : jsstring) : jsstring :=
  js "User query: " ++ [34] ++ text ++ [34] ++ js " -> Response: " ++ [34]
  ++ substring0 50 answer ++ js "..." ++ [34].

Definition ping_request : Request := mkRequest GET (API_BASE_URL ++ js "/") NoBody.


(** The entry the loop builds for the text of the document at [index]. *)
Definition render_document (index : nat) (s : jsstring) : DocItem :=
  let textParts := map trim (split 124 s) in
  mkDoc (index + 1)
        (match part textParts 0 with Some p => p | None => [] end)
        (part textParts 1) (part textParts 2).

(** The entries rendered from a list, up to its first document that cannot
    be rendered, and the exception that document raises: [doc.text] throws
    on a null document, and [split] is missing on a text that is not a
    string. *)
Fixpoint rendered (docs : list jsval) (index : nat) : list DocItem :=
  match docs with
  | [] => []
  | doc :: rest =>
    match property doc "text" with
    | Normal (JStr s) => render_document index s :: rendered rest (S index)
    | _ => []
    end
  end.

Fixpoint render_failure (docs : list jsval) : option JsError :=
  match docs with
  | [] => None
  | doc :: rest =>
    match property doc "text" with
    | Thrown e => Some e
    | Normal (JStr _) => render_failure rest
    | Normal v => Some (not_a_string_error v)
    end
  end.

Definition nonblank (s : jsstring) : option jsstring :=
  match s with
  | [] => None
  | _ :: _ => Some s
  end.

Definition no_pipe (s : jsstring) : bool := forallb (fun u => negb (u =? 124)) s.

Definition loaded_log (n : nat) : jsstring :=
  js "Loaded " ++ decimal (Z.of_nat n) ++ js " documents from knowledge base".

(** *** The optional WebSocket channel *)

(** The handlers [initWebSocket] puts on the socket; the script does not
    call [initWebSocket].  [parsed] is how [JSON.parse(event.data)]
    completes. *)
Definition ws_onopen : Js unit :=
  logToSystem (js "WebSocket connected for real-time voice") info.


Definition ws_onclose : Js unit := logToSystem (js "WebSocket disconnected") info.

(** *** The ways a query ends *)

(** How the request of [sendMessage] ends: with an error before any answer
    is shown (the template of [addMessage] throwing among them), with an
    answer that is shown but is not a string, or with an answer that is a
    string. *)
Inductive QueryEnd : Type :=
| EarlyFailure (e : JsError)
| BadAnswer (data : jsval) (answer : jsval)
| Answered (data : jsval) (answer : jsstring).

Definition query_end (o : FetchOutcome) : QueryEnd :=
  match o with
  | Rejected e => EarlyFailure e
  | Fulfilled r =>
    if ok r then
      match json_body r with
      | Thrown e => EarlyFailure e
      | Normal data =>
        match property data "answer" with
        | Thrown e => EarlyFailure e
        | Normal v =>
          if template_throws v then EarlyFailure template_error
          else match v with
               | JStr a => Answered data a
               | _ => BadAnswer data v
               end
        end
      end
    else EarlyFailure (mkError (js "Error") (js "HTTP error! status: " ++ decimal (status r)))
  end.

(** The world the [catch] block of [sendMessage] leaves. *)
Definition after_query_error (e : JsError) (w : World) : World :=
  set_logsContainer (logsContainer w ++ [mkLog error (js "Error: " ++ err_message e)])
    (set_chatMessages (chatMessages w ++ [mkMessage bot (js "Assistant") sorry_text false])
       (set_console (console w ++ [ConsoleError (js "Error sending message:") (err_message e)])
          w)).

(** The world once the user's message is shown and the request is issued. *)
Definition query_issued (text : jsstring) (w : World) : World :=
  set_requests (requests w ++ [query_request text (currentLanguage w)])
    (set_inputValue []
       (set_chatMessages
          (chatMessages w ++ [mkMessage user (js "You") text (matches_malayalam text)]) w)).

Definition value_of (c : Completion jsval) : jsval :=
  match c with
  | Normal v => v
  | Thrown _ => JUndefined
  end.

(** The world a query ends in, from the world [w] in which it was sent. *)
Definition after_query (host : Host) (text : jsstring) (q : QueryEnd) (w : World) : World :=
  let w2 := query_issued text w in
  match q with
  | EarlyFailure e => after_query_error e w2
  | BadAnswer data v =>
    after_query_error (not_a_string_error v)
      (set_chatMessages
         (chatMessages w2 ++ [mkMessage bot (js "Assistant") (to_string v) false]) w2)
  | Answered data a =>
    let w3 := set_chatMessages
                (chatMessages w2 ++ [mkMessage bot (js "Assistant") a (matches_malayalam a)])
                w2 in
    let audio_url := value_of (property data "audio_url") in
    let language := value_of (property data "language") in
    if truthy audio_url && template_throws audio_url then
      after_query_error template_error w3
    else
      let w4 := if truthy audio_url then
                  set_played (played w3 ++ [API_BASE_URL ++ to_string audio_url]) w3
                else if has_speechSynthesis host then
                  set_spoken (spoken w3 ++ [mkUtterance a (locale_of language)]) w3
                else w3 in
      set_logsContainer (logsContainer w4 ++ [mkLog info (query_log text a)]) w4
  end.

Definition is_bot (m : MessageEl) : bool :=
  match msg_sender m with
  | bot => true
  | _ => false
  end.

(** The liveness probe of [DOMContentLoaded], with its [then] and [catch]. *)
Definition ping (o_ping : FetchOutcome) : Js unit :=
  try_catch
    (response <- fetch (mkRequest GET (API_BASE_URL ++ js "/") NoBody) o_ping ;;
     data <- response_json response ;;
     message <- get_prop data "message" ;;
     shown <- template message ;;
     logToSystem (js "Backend connected: " ++ shown) info)
    (fun exn => logToSystem (js "Backend connection failed: " ++ err_message exn) error).

Definition microphone_denied_text : jsstring :=
  js "Microphone access denied. Please allow microphone permissions.".

Definition unsupported_text : jsstring :=
  js "Voice recognition is not supported in your browser.".

(** A browser without speech recognition. *)
Definition silent_host : Host := mkHost false true blank_form.

(** Literals are unfolded last when two terms are compared. *)
Strategy 1000 [js decimal matches_malayalam trim].

Arguments js : simpl never.
Arguments decimal : simpl never.
Arguments matches_malayalam : simpl never.
Arguments trim : simpl never.
Arguments addMessage : simpl never.
Arguments logToSystem : simpl never.
Arguments console_error : simpl never.

(* ================================================================== *)
(** ** Strings: facts used below *)
(* ================================================================== *)

Lemma jseqb_refl (a : jsstring) : jseqb a a = true.
Proof.
  induction a as [|x a IH]; [reflexivity|].
  cbn. now rewrite Z.eqb_refl, IH.
Qed.

Lemma jseqb_eq (a b : jsstring) : jseqb a b = true <-> a = b.
Proof.
  split; [|intros ->; apply jseqb_refl].
  revert b. induction a as [|x a IH]; intros [|y b]; cbn; try discriminate; auto.
  intros H. apply andb_true_iff in H as [Hx Hr].
  apply Z.eqb_eq in Hx. f_equal; auto.
Qed.

Lemma trimStart_nil_iff (s : jsstring) :
  trimStart s = [] <-> forallb is_space s = true.
Proof.
  induction s as [|u r IH]; cbn; [tauto|].
  destruct (is_space u); cbn; [exact IH|].
  split; discriminate.
Qed.

Lemma trimStart_suffix (s : jsstring) : exists p,
  s = p ++ trimStart s /\ forallb is_space p = true.
Proof.
  induction s as [|u r (p & Hp & Hs)]; [exists []; auto|].
  cbn. destruct (is_space u) eqn:E.
  - exists (u :: p). cbn. rewrite E, Hs. split; [now rewrite <- Hp | reflexivity].
  - exists []. auto.
Qed.

Lemma forallb_rev {A} (f : A -> bool) (l : list A) :
  forallb f (rev l) = forallb f l.
Proof.
  induction l as [|x l IH]; [reflexivity|].
  cbn. rewrite forallb_app, IH. cbn. rewrite andb_true_r. apply andb_comm.
Qed.

(** The input is blank for [sendMessage] exactly when it holds nothing but
    white space. *)
Lemma trim_nil_iff (s : jsstring) :
  trim s = [] <-> forallb is_space s = true.
Proof.
  unfold trim. split.
  - intros H. apply (f_equal (@rev Z)) in H. rewrite rev_involutive in H. cbn in H.
    apply trimStart_nil_iff in H. rewrite forallb_rev in H.
    destruct (trimStart_suffix s) as (p & Hp & Hs).
    rewrite Hp, forallb_app, Hs. exact H.
  - intros H. apply trimStart_nil_iff in H. rewrite H. reflexivity.
Qed.

Lemma malayalam_unit_high (u : Z) : 3455 < u -> malayalam_unit u = false.
Proof.
  intros H. unfold malayalam_unit.
  apply andb_false_iff. right. apply Z.leb_gt. exact H.
Qed.

Lemma utf16_units_malayalam (c : Z) :
  existsb malayalam_unit (utf16_units c) = malayalam_unit c.
Proof.
  unfold utf16_units.
  destruct (Z.ltb_spec c 65536) as [Hc|Hc]; cbn [existsb].
  - now rewrite orb_false_r.
  - assert (0 <= Z.shiftr (c - 65536) 10) by (apply Z.shiftr_nonneg; lia).
    assert (0 <= Z.land (c - 65536) 1023) by (apply Z.land_nonneg; lia).
    rewrite !malayalam_unit_high by lia. reflexivity.
Qed.

(** The regular expression, which sees code units, finds a match exactly
    when the text holds a code point of the Malayalam block: a surrogate
    pair never falls into the block. *)
Lemma matches_malayalam_utf16 (cps : list Z) :
  matches_malayalam (utf16_encode cps) = existsb malayalam_unit cps.
Proof.
  unfold matches_malayalam, utf16_encode.
  induction cps as [|c r IH]; [reflexivity|].
  cbn [flat_map existsb]. now rewrite existsb_app, utf16_units_malayalam, IH.
Qed.

Lemma update_last_app {A} (f : A -> A) (l : list A) (x : A) :
  update_last f (l ++ [x]) = l ++ [f x].
Proof.
  induction l as [|y l IH]; [reflexivity|].
  cbn [app update_last]. rewrite IH.
  destruct (l ++ [x]) eqn:E; [|reflexivity].
  destruct l; discriminate.
Qed.

(* ================================================================== *)
(** ** Stepping through a computation *)
(* ================================================================== *)

Lemma bind_normal {A B} (m : Js A) (k : A -> Js B) (w w1 : World) (a : A) :
  m w = (Normal a, w1) -> bind m k w = k a w1.
Proof. intros H. unfold bind. now rewrite H. Qed.

Lemma bind_thrown {A B} (m : Js A) (k : A -> Js B) (w w1 : World) (e : JsError) :
  m w = (Thrown e, w1) -> bind m k w = (Thrown e, w1).
Proof. intros H. unfold bind. now rewrite H. Qed.

Lemma try_catch_normal {A} (m : Js A) (handler : JsError -> Js A) (w w1 : World) (a : A) :
  m w = (Normal a, w1) -> try_catch m handler w = (Normal a, w1).
Proof. intros H. unfold try_catch. now rewrite H. Qed.

Lemma try_catch_thrown {A} (m : Js A) (handler : JsError -> Js A) (w w1 : World)
      (e : JsError) :
  m w = (Thrown e, w1) -> try_catch m handler w = handler e w1.
Proof. intros H. unfold try_catch. now rewrite H. Qed.

Lemma try_catch_bind_normal {A B} (m : Js A) (k : A -> Js B) (handler : JsError -> Js B)
      (w w1 : World) (a : A) :
  m w = (Normal a, w1) -> try_catch (bind m k) handler w = try_catch (k a) handler w1.
Proof. intros H. unfold try_catch, bind. now rewrite H. Qed.

Lemma fetch_rejected (rq : Request) (e : JsError) (w : World) :
  fetch rq (Rejected e) w = (Thrown e, set_requests (requests w ++ [rq]) w).
Proof. reflexivity. Qed.

Lemma fetch_fulfilled (rq : Request) (r : Response) (w : World) :
  fetch rq (Fulfilled r) w = (Normal r, set_requests (requests w ++ [rq]) w).
Proof. reflexivity. Qed.

(* ================================================================== *)
(** ** The conversation log *)
(* ================================================================== *)

(** [addMessage] with a string: one element is appended, marked by the
    regular expression, and nothing is thrown. *)
Lemma addMessage_string (sender : Sender) (s : jsstring) (w : World) :
  addMessage sender (JStr s) w =
  (Normal tt,
   set_chatMessages
     (chatMessages w ++ [mkMessage sender (sender_name sender) s (matches_malayalam s)]) w).
Proof.
  unfold addMessage, bind, modify, string_receiver, ret. cbn.
  destruct (matches_malayalam s); cbn; [|reflexivity].
  now rewrite update_last_app.
Qed.

Lemma sorry_text_plain :
  matches_malayalam
    (js "Sorry, there was an error processing your request. Please try again.") = false.
Proof. vm_compute. reflexivity. Qed.

(** C8, as stated, fails: the script passes [data.answer] and [data.text]
    to [addMessage] as the JSON values they are.  For the answer
    [["നമസ്കാരം"]], an array of one string, the message is appended showing
    the Malayalam text and carries no marker: an array has no [match], so
    the call throws after the element is in the thread.  A 200 reply to a
    query with that answer leaves this message in the conversation. *)
Lemma malayalam_marker_missed :
  let text := JArr [JStr (utf16_encode namaskaram)] in
  let reply := Fulfilled (mkResponse 200 (Normal (JObj [(js "answer", text)]))) in
  let asked := set_inputValue (js "hello") fresh_world in
  chatMessages (run (addMessage bot text) fresh_world)
    = [mkMessage bot (js "Assistant") (utf16_encode namaskaram) false] /\
  (exists c, In c namaskaram /\ 3328 <= c <= 3455) /\
  matches_malayalam (utf16_encode namaskaram) = true /\
  In (mkMessage bot (js "Assistant") (utf16_encode namaskaram) false)
     (chatMessages (run (sendMessage blank_host reply) asked)).
Proof.
  cbv zeta. split; [vm_compute; reflexivity|].
  split; [exists 3368; split; [left; reflexivity | lia]|].
  split; [vm_compute; reflexivity|].
  vm_compute. right. left. reflexivity.
Qed.

(** C8, amended. Every message appended with a string as its text carries
    the Malayalam marker when the text holds a code point of the Malayalam
    block (U+0D00..U+0D7F), and does not when the text is pure ASCII.  The
    text is given by its code points and reaches [addMessage] as the UTF-16
    string. *)
Theorem addMessage_malayalam_marker (sender : Sender) (cps : list Z) (w : World) :
  exists m,
    result (addMessage sender (JStr (utf16_encode cps))) w = Normal tt /\
    chatMessages (run (addMessage sender (JStr (utf16_encode cps))) w)
      = chatMessages w ++ [m] /\
    msg_sender m = sender /\
    msg_text m = utf16_encode cps /\
    ((exists c, In c cps /\ 3328 <= c <= 3455) -> malayalam_text m = true) /\
    (Forall (fun c => 0 <= c < 128) cps -> malayalam_text m = false).
Proof.
  unfold result, run. rewrite addMessage_string. cbn.
  eexists. repeat split; cbn; rewrite matches_malayalam_utf16.
  - intros (c & Hin & Hc). apply existsb_exists. exists c. split; [exact Hin|].
    unfold malayalam_unit. apply andb_true_iff. split; apply Z.leb_le; lia.
  - intros Hall. apply not_true_is_false. intros H.
    apply existsb_exists in H as (c & Hin & Hc).
    rewrite Forall_forall in Hall. specialize (Hall c Hin).
    unfold malayalam_unit in Hc. apply andb_true_iff in Hc as [Hlo _].
    apply Z.leb_le in Hlo. lia.
Qed.

Lemma addMessage_malayalam_marker_witness :
  (exists m, chatMessages (run (addMessage bot (JStr (utf16_encode namaskaram))) fresh_world)
               = chatMessages fresh_world ++ [m]
             /\ malayalam_text m = true) /\
  (exists m, chatMessages (run (addMessage bot (JStr (utf16_encode opening_hours))) fresh_world)
               = chatMessages fresh_world ++ [m]
             /\ malayalam_text m = false).
Proof.
  split.
  - destruct (addMessage_malayalam_marker bot namaskaram fresh_world)
      as (m & _ & Hc & _ & _ & Hyes & _).
    exists m. split; [exact Hc|]. apply Hyes. exists 3368. split; [left; reflexivity | lia].
  - destruct (addMessage_malayalam_marker bot opening_hours fresh_world)
      as (m & _ & Hc & _ & _ & _ & Hno).
    exists m. split; [exact Hc|]. apply Hno. unfold opening_hours.
    repeat (constructor; [lia|]). constructor.
Defined.

(* ================================================================== *)
(** ** query: sendMessage *)
(* ================================================================== *)

(** C10. With an input that is empty once trimmed, [sendMessage] does
    nothing: no message is appended, the input field keeps its value, no
    request is issued; indeed the whole world is as before. *)
Theorem sendMessage_blank_noop (host : Host) (o : FetchOutcome) (w : World) :
  trim (inputValue w) = [] ->
  result (sendMessage host o) w = Normal tt /\
  chatMessages (run (sendMessage host o) w) = chatMessages w /\
  inputValue (run (sendMessage host o) w) = inputValue w /\
  requests (run (sendMessage host o) w) = requests w /\
  run (sendMessage host o) w = w.
Proof.
  intros H. unfold result, run, sendMessage, bind, gets. rewrite H. cbn. auto.
Qed.

Lemma sendMessage_blank_noop_witness :
  forallb is_space (js "  	 ") = true /\
  run (sendMessage blank_host (Rejected (mkError (js "TypeError") (js "Failed to fetch"))))
      (set_inputValue (js "  	 ") fresh_world)
  = set_inputValue (js "  	 ") fresh_world.
Proof.
  split; [reflexivity|].
  apply (sendMessage_blank_noop blank_host). reflexivity.
Defined.

(** What a failed [sendMessage] leaves behind. *)
Lemma sendMessage_failed (host : Host) (o : FetchOutcome) (w : World) :
  trim (inputValue w) <> [] -> failed o ->
  let text := trim (inputValue w) in
  result (sendMessage host o) w = Normal tt /\
  chatMessages (run (sendMessage host o) w) =
    chatMessages w ++ [mkMessage user (js "You") text (matches_malayalam text);
                       mkMessage bot (js "Assistant") sorry_text false] /\
  logsContainer (run (sendMessage host o) w) =
    logsContainer w ++ [mkLog error (js "Error: " ++ failure_text o)] /\
  List.length (requests (run (sendMessage host o) w)) = S (List.length (requests w)).
Proof.
  intros Ht Hf text. subst text.
  remember (trim (inputValue w)) as text eqn:Etext.
  assert (Hrun : sendMessage host o w =
    let w1 := set_inputValue []
                (set_chatMessages
                   (chatMessages w ++ [mkMessage user (js "You") text (matches_malayalam text)])
                   w) in
    let rq := mkRequest POST (API_BASE_URL ++ js "/api/query")
                (JsonBody (JObj [(js "text", JStr text);
                                 (js "language", if is_str (currentLanguage w1) (js "auto")
                                                 then JNull else currentLanguage w1)])) in
    (Normal tt,
     set_logsContainer (logsContainer w ++ [mkLog error (js "Error: " ++ failure_text o)])
       (set_chatMessages
          (chatMessages w1 ++ [mkMessage bot (js "Assistant") sorry_text false])
          (set_console (console w ++ [ConsoleError (js "Error sending message:") (failure_text o)])
             (set_requests (requests w ++ [rq]) w1))))).
  { unfold sendMessage. unfold bind at 1, gets at 1. rewrite <- Etext.
    destruct text as [|u t]; [congruence|].
    unfold bind at 1. rewrite addMessage_string.
    unfold bind at 1, modify at 1. cbv zeta.
    assert (Hh : forall e w0,
      (console_error "Error sending message:" e ;;
       addMessage bot (JStr (js "Sorry, there was an error processing your request. Please try again.")) ;;
       logToSystem (js "Error: " ++ err_message e) error) w0 =
      (Normal tt,
       set_logsContainer (logsContainer w0 ++ [mkLog error (js "Error: " ++ err_message e)])
         (set_chatMessages
            (chatMessages w0 ++ [mkMessage bot (js "Assistant") sorry_text false])
            (set_console (console w0 ++ [ConsoleError (js "Error sending message:") (err_message e)])
               w0)))).
    { intros e w0. unfold bind, console_error, modify. rewrite addMessage_string.
      unfold sorry_text. rewrite sorry_text_plain. reflexivity. }
    destruct o as [e|r]; cbn [failed failure_text] in *.
    - erewrite try_catch_thrown;
        [|erewrite bind_normal by reflexivity;
          erewrite bind_thrown by apply fetch_rejected; reflexivity].
      rewrite Hh. reflexivity.
    - erewrite try_catch_thrown;
        [|erewrite bind_normal by reflexivity;
          erewrite bind_normal by apply fetch_fulfilled;
          rewrite Hf; reflexivity].
      rewrite Hh. reflexivity. }
  unfold result, run. rewrite Hrun. cbv zeta.
  cbn [fst snd chatMessages logsContainer requests
       set_logsContainer set_chatMessages set_console set_requests set_inputValue].
  rewrite <- app_assoc, length_app, Nat.add_1_r. repeat split.
Qed.

(** C4. A [sendMessage] with an input that is not blank, whose request
    fails (the fetch is rejected or the status is not 2xx), completes
    without throwing, appends exactly one bot message, the apology, after
    the user's own, and exactly one log entry. *)
Theorem sendMessage_failure_one_bot_one_log (host : Host) (o : FetchOutcome) (w : World) :
  trim (inputValue w) <> [] -> failed o ->
  result (sendMessage host o) w = Normal tt /\
  (exists new,
     chatMessages (run (sendMessage host o) w) = chatMessages w ++ new /\
     count_sender bot new = 1%nat /\
     In (mkMessage bot (js "Assistant") sorry_text false) new) /\
  (exists entry,
     logsContainer (run (sendMessage host o) w) = logsContainer w ++ [entry] /\
     log_type entry = error /\
     log_message entry = js "Error: " ++ failure_text o).
Proof.
  intros Ht Hf.
  destruct (sendMessage_failed host o w Ht Hf) as (Hr & Hc & Hl & _).
  split; [exact Hr|]. split.
  - eexists. split; [exact Hc|]. split; [reflexivity|]. cbn. auto.
  - eexists. split; [exact Hl|]. split; reflexivity.
Qed.

Lemma sendMessage_failure_one_bot_one_log_witness :
  let w := set_inputValue (js "What are the library hours?") fresh_world in
  let o := Fulfilled (mkResponse 503 (Thrown (mkError (js "SyntaxError") (js "Unexpected token")))) in
  result (sendMessage blank_host o) w = Normal tt /\
  List.length (chatMessages (run (sendMessage blank_host o) w)) = 2%nat /\
  List.length (logsContainer (run (sendMessage blank_host o) w)) = 1%nat.
Proof.
  intros w o.
  destruct (sendMessage_failure_one_bot_one_log blank_host o w) as (Hr & _ & _).
  - vm_compute. discriminate.
  - reflexivity.
  - split; [exact Hr|]. split; reflexivity.
Defined.

(* ================================================================== *)
(** ** Reasoning about computations *)
(* ================================================================== *)

Lemma never_throws_bind {A B} (m : Js A) (k : A -> Js B) :
  never_throws m -> (forall a, never_throws (k a)) -> never_throws (bind m k).
Proof.
  intros Hm Hk w. destruct (Hm w) as [a Ha].
  unfold result, bind in *. destruct (m w) as [c w1]. cbn in Ha. subst c.
  apply Hk.
Qed.

Lemma never_throws_try_catch {A} (m : Js A) (handler : JsError -> Js A) :
  (forall e, never_throws (handler e)) -> never_throws (try_catch m handler).
Proof.
  intros Hh w. unfold result, try_catch.
  destruct (m w) as [[a|e] w1]; [exists a; reflexivity | apply Hh].
Qed.

Lemma never_throws_modify (f : World -> World) : never_throws (modify f).
Proof. intros w. exists tt. reflexivity. Qed.

Lemma never_throws_addMessage_string (sender : Sender) (s : jsstring) :
  never_throws (addMessage sender (JStr s)).
Proof. intros w. exists tt. unfold result. now rewrite addMessage_string. Qed.

Lemma spawn_never_throws (m : Js unit) : never_throws (spawn m).
Proof.
  intros w. exists tt. unfold result, spawn. destruct (m w) as [[a|e] w1]; reflexivity.
Qed.

Lemma spawn_of_never_throws (m : Js unit) (w : World) :
  never_throws m -> spawn m w = (Normal tt, run m w).
Proof.
  intros H. destruct (H w) as [a Ha]. unfold spawn, run, result in *.
  destruct (m w) as [c w1]. cbn in *. now subst c.
Qed.

(** Frames: a computation that leaves one observation of the world alone,
    however it completes. *)
Section Frame.

Context {X : Type} (f : World -> X).

Lemma preserves_ret {A} (a : A) : preserves f (ret a).
Proof. intros w. reflexivity. Qed.

Lemma preserves_throw {A} (e : JsError) : preserves f (@throw A e).
Proof. intros w. reflexivity. Qed.

Lemma preserves_gets {A} (g : World -> A) : preserves f (gets g).
Proof. intros w. reflexivity. Qed.

Lemma preserves_await {A} (c : Completion A) : preserves f (await c).
Proof. intros w. reflexivity. Qed.

Lemma preserves_modify (g : World -> World) :
  (forall w, f (g w) = f w) -> preserves f (modify g).
Proof. intros H w. apply H. Qed.

Lemma preserves_bind {A B} (m : Js A) (k : A -> Js B) :
  preserves f m -> (forall a, preserves f (k a)) -> preserves f (bind m k).
Proof.
  intros Hm Hk w. specialize (Hm w). unfold run, bind in *.
  destruct (m w) as [[a|e] w1]; cbn in *; [|exact Hm].
  rewrite <- Hm. apply Hk.
Qed.

Lemma preserves_try_catch {A} (m : Js A) (handler : JsError -> Js A) :
  preserves f m -> (forall e, preserves f (handler e)) -> preserves f (try_catch m handler).
Proof.
  intros Hm Hh w. specialize (Hm w). unfold run, try_catch in *.
  destruct (m w) as [[a|e] w1]; cbn in *; [exact Hm|].
  rewrite <- Hm. apply Hh.
Qed.

Lemma preserves_spawn (m : Js unit) :
  (forall x w, f (set_unhandled x w) = f w) -> preserves f m -> preserves f (spawn m).
Proof.
  intros Hu Hm w. specialize (Hm w). unfold run, spawn in *.
  destruct (m w) as [[a|e] w1]; cbn in *; [exact Hm|].
  now rewrite Hu.
Qed.

Lemma preserves_forEach_document (docs : list jsval) (index : nat) :
  (forall x w, f (set_documentsList x w) = f w) ->
  preserves f (forEach_document docs index).
Proof.
  intros Hd. revert index.
  induction docs as [|doc rest IH]; intros index; [apply preserves_ret|].
  cbn [forEach_document].
  apply preserves_bind; [destruct doc; (apply preserves_ret || apply preserves_throw)|].
  intros text.
  apply preserves_bind; [destruct text; (apply preserves_ret || apply preserves_throw)|].
  intros s0.
  apply preserves_bind; [apply preserves_modify; intros; apply Hd | intros; apply IH].
Qed.

End Frame.

Ltac head_of t :=
  match t with
  | ?g _ => head_of g
  | _ => t
  end.

(** Decides a frame goal by walking through the computation. *)
Ltac frame :=
  repeat match goal with
  | |- forall _, _ => intro
  | |- preserves _ ((fun _ => _) _) => cbv beta
  | |- preserves _ (bind _ _) => apply preserves_bind
  | |- preserves _ (try_catch _ _) => apply preserves_try_catch
  | |- preserves _ (spawn _) => apply preserves_spawn; [reflexivity|]
  | |- preserves _ (ret _) => apply preserves_ret
  | |- preserves _ (throw _) => apply preserves_throw
  | |- preserves _ (gets _) => apply preserves_gets
  | |- preserves _ (await _) => apply preserves_await
  | |- preserves _ (forEach_document _ _) =>
      apply preserves_forEach_document; reflexivity
  | |- preserves _ (modify _) =>
      apply preserves_modify; intro;
      try match goal with |- context [match ?x with _ => _ end] => destruct x end;
      reflexivity
  | |- preserves _ (if ?b then _ else _) => destruct b
  | |- preserves _ (match ?x with _ => _ end) => destruct x
  | |- preserves _ ?m => let h := head_of m in unfold h
  end.

(* ================================================================== *)
(** ** listDocuments: loadDocuments *)
(* ================================================================== *)

Lemma loadDocuments_never_throws (o : FetchOutcome) : never_throws (loadDocuments o).
Proof.
  apply never_throws_try_catch. intros e w. exists tt. reflexivity.
Qed.

Lemma loadDocuments_chat (o : FetchOutcome) : preserves chatMessages (loadDocuments o).
Proof. frame. Qed.

Lemma loadDocuments_form (o : FetchOutcome) : preserves form (loadDocuments o).
Proof. frame. Qed.

Lemma loadDocuments_recorders (o : FetchOutcome) : preserves recorders (loadDocuments o).
Proof. frame. Qed.

Lemma loadDocuments_requests (o : FetchOutcome) (w : World) :
  requests (run (loadDocuments o) w) = requests w ++ [documents_request].
Proof.
  unfold run, loadDocuments. destruct o as [e|r].
  - erewrite try_catch_thrown;
      [|erewrite bind_thrown by apply fetch_rejected; reflexivity].
    reflexivity.
  - erewrite try_catch_bind_normal by apply fetch_fulfilled.
    match goal with
    | |- requests (snd (?m ?w1)) = _ =>
        assert (H : preserves requests m) by frame; exact (H w1)
    end.
Qed.

Lemma loadDocuments_transport_failure (o : FetchOutcome) (e : JsError) (w : World) :
  transport_failure o = Some e ->
  loadDocuments o w =
  (Normal tt,
   set_logsContainer
     (logsContainer w ++ [mkLog error (js "Error loading documents: " ++ err_message e)])
     (set_console (console w ++ [ConsoleError (js "Error loading documents:") (err_message e)])
        (set_requests (requests w ++ [documents_request]) w))).
Proof.
  destruct o as [e0|r]; cbn.
  - intros [= ->]. reflexivity.
  - destruct (json_body r) as [d|e0] eqn:E; [discriminate|]. intros [= ->].
    unfold loadDocuments.
    erewrite try_catch_bind_normal by apply fetch_fulfilled.
    erewrite try_catch_thrown;
      [|erewrite bind_thrown by (unfold response_json, await; now rewrite E); reflexivity].
    reflexivity.
Qed.

Lemma loadDocuments_no_array (r : Response) (data : jsval) (w : World) :
  json_body r = Normal data -> documents_array data = None ->
  exists exn,
    loadDocuments (Fulfilled r) w =
    (Normal tt,
     set_logsContainer
       (logsContainer w ++ [mkLog error (js "Error loading documents: " ++ err_message exn)])
       (set_console (console w ++ [ConsoleError (js "Error loading documents:") (err_message exn)])
          (set_documentsList []
             (set_requests (requests w ++ [documents_request]) w)))).
Proof.
  intros E Hd. unfold loadDocuments.
  erewrite try_catch_bind_normal by apply fetch_fulfilled.
  erewrite try_catch_bind_normal by (unfold response_json, await; now rewrite E).
  erewrite try_catch_bind_normal by reflexivity.
  destruct data as [| |b|n|s0|xs|props]; cbn [get_prop documents_array] in *;
    try (eexists; erewrite try_catch_thrown; [|reflexivity]; reflexivity).
  destruct (own_property props (js "documents")); try discriminate;
    eexists; (erewrite try_catch_thrown; [|reflexivity]); reflexivity.
Qed.

(** C2, as stated, fails: after a list of one document has been shown, a
    reload that meets a network error adds its log entry and leaves that
    document in the container. *)
Lemma loadDocuments_failure_list_not_emptied :
  documentsList page_with_document
    = [mkDoc 1 (js "Library hours") (Some (js "ലൈബ്രറി സമയം")) (Some (js "library samayam"))] /\
  result (loadDocuments network_down) page_with_document = Normal tt /\
  List.length (logsContainer (run (loadDocuments network_down) page_with_document))
    = S (List.length (logsContainer page_with_document)) /\
  documentsList (run (loadDocuments network_down) page_with_document)
    = documentsList page_with_document /\
  documentsList (run (loadDocuments network_down) page_with_document) <> [].
Proof. vm_compute. repeat split. discriminate. Qed.

(** C2, amended. When the fetch of [loadDocuments] is rejected or the body
    of the response is not JSON, the call completes normally, one error
    entry that carries the error text is logged, and the documents
    container is left as it was; when the body is JSON without an array of
    documents, one error entry is logged and the container is emptied. *)
Theorem loadDocuments_failure_logged (o : FetchOutcome) (w : World) :
  (forall e, transport_failure o = Some e ->
     result (loadDocuments o) w = Normal tt /\
     logsContainer (run (loadDocuments o) w)
       = logsContainer w ++ [mkLog error (js "Error loading documents: " ++ err_message e)] /\
     documentsList (run (loadDocuments o) w) = documentsList w) /\
  (forall r data, o = Fulfilled r -> json_body r = Normal data ->
     documents_array data = None ->
     result (loadDocuments o) w = Normal tt /\
     (exists entry, logsContainer (run (loadDocuments o) w) = logsContainer w ++ [entry]
                    /\ log_type entry = error) /\
     documentsList (run (loadDocuments o) w) = []).
Proof.
  split.
  - intros e He. unfold result, run.
    rewrite (loadDocuments_transport_failure o w He). cbn. auto.
  - intros r data -> E Hd. unfold result, run.
    destruct (loadDocuments_no_array r w E Hd) as [exn ->]. cbn.
    split; [reflexivity|]. split; [|reflexivity].
    eexists. split; reflexivity.
Qed.

Lemma loadDocuments_failure_logged_witness :
  documentsList (run (loadDocuments network_down) page_with_document)
    = documentsList page_with_document /\
  documentsList (run (loadDocuments
      (Fulfilled (mkResponse 500 (Normal (JObj [(js "detail", JStr (js "Internal Server Error"))])))))
      page_with_document) = [].
Proof.
  split.
  - apply (proj1 (loadDocuments_failure_logged network_down page_with_document)
                 (mkError (js "TypeError") (js "Failed to fetch"))).
    reflexivity.
  - eapply (proj2 (loadDocuments_failure_logged _ page_with_document)); reflexivity.
Defined.

(* ================================================================== *)
(** ** addDocument and the form of the admin panel *)
(* ================================================================== *)

Lemma addDocument_spec (english malayalam manglish : jsstring)
      (o o_list : FetchOutcome) (w : World) :
  let w1 := set_requests (requests w ++ [add_request english malayalam manglish]) w in
  addDocument english malayalam manglish o o_list w =
  match add_outcome o with
  | inl e =>
    (Normal false,
     set_logsContainer
       (logsContainer w ++ [mkLog error (js "Error adding document: " ++ err_message e)])
       (set_chatMessages
          (chatMessages w ++ [mkMessage system (js "Assistant") (add_error_text e)
                                        (matches_malayalam (add_error_text e))])
          (set_console (console w ++ [ConsoleError (js "Error adding document:") (err_message e)])
             w1)))
  | inr id =>
    (Normal true,
     run (loadDocuments o_list)
       (set_logsContainer
          (logsContainer w ++ [mkLog info (js "Added new document: " ++ substring0 50 english
                                           ++ js "...")])
          (set_chatMessages
             (chatMessages w ++ [mkMessage system (js "Assistant") (added_text id)
                                           (matches_malayalam (added_text id))])
             w1)))
  end.
Proof.
  intros w1. subst w1.
  assert (Hfail : forall e w0,
    (console_error "Error adding document:" e ;;
     addMessage system (JStr (js "❌ Error adding document: " ++ err_message e)) ;;
     logToSystem (js "Error adding document: " ++ err_message e) error ;;
     ret false) w0 =
    (Normal false,
     set_logsContainer
       (logsContainer w0 ++ [mkLog error (js "Error adding document: " ++ err_message e)])
       (set_chatMessages
          (chatMessages w0 ++ [mkMessage system (js "Assistant") (add_error_text e)
                                         (matches_malayalam (add_error_text e))])
          (set_console (console w0 ++ [ConsoleError (js "Error adding document:") (err_message e)])
             w0)))).
  { intros e w0. unfold bind, console_error, modify, add_error_text.
    rewrite addMessage_string. reflexivity. }
  assert (Hok : forall id w0,
    (addMessage system (JStr (js "✅ Document added successfully! ID: " ++ to_string id)) ;;
     logToSystem (js "Added new document: " ++ substring0 50 english ++ js "...") info ;;
     spawn (loadDocuments o_list) ;;
     ret true) w0 =
    (Normal true,
     run (loadDocuments o_list)
       (set_logsContainer
          (logsContainer w0 ++ [mkLog info (js "Added new document: " ++ substring0 50 english
                                            ++ js "...")])
          (set_chatMessages
             (chatMessages w0 ++ [mkMessage system (js "Assistant") (added_text id)
                                            (matches_malayalam (added_text id))])
             w0)))).
  { intros id w0. unfold bind, added_text. rewrite addMessage_string.
    unfold logToSystem, modify.
    rewrite (spawn_of_never_throws _ (loadDocuments_never_throws o_list)). reflexivity. }
  unfold addDocument, add_request.
  destruct o as [e|r]; cbn [add_outcome].
  - erewrite try_catch_thrown;
      [|erewrite bind_thrown by apply fetch_rejected; reflexivity].
    rewrite Hfail. reflexivity.
  - erewrite try_catch_bind_normal by apply fetch_fulfilled.
    destruct (ok r); cbn [negb].
    + unfold response_json, await.
      destruct (json_body r) as [data|e].
      * erewrite try_catch_bind_normal by reflexivity.
        destruct data as [| |b|n|s0|xs|props]; cbn [get_prop];
          try (erewrite try_catch_thrown; [|reflexivity]; rewrite Hfail; reflexivity);
          try (erewrite try_catch_bind_normal by reflexivity;
               erewrite try_catch_bind_normal by reflexivity;
               (erewrite try_catch_normal; [|rewrite Hok; reflexivity]); reflexivity).
        erewrite try_catch_bind_normal by reflexivity. unfold template.
        destruct (template_throws (own_property props (js "id"))).
        -- erewrite try_catch_thrown; [|reflexivity]. rewrite Hfail. reflexivity.
        -- erewrite try_catch_bind_normal by reflexivity.
           (erewrite try_catch_normal; [|rewrite Hok; reflexivity]). reflexivity.
      * erewrite try_catch_thrown; [|reflexivity]. rewrite Hfail. reflexivity.
    + erewrite try_catch_thrown; [|reflexivity]. rewrite Hfail. reflexivity.
Qed.

Lemma listDocuments_calls_app (a b : list Request) :
  listDocuments_calls (a ++ b) = (listDocuments_calls a + listDocuments_calls b)%nat.
Proof. unfold listDocuments_calls. now rewrite filter_app, length_app. Qed.

(** C7. An [addDocument] that succeeds (returns true) issues, after its
    POST, exactly one GET of the documents: the list is fetched again
    once. *)
Theorem addDocument_success_reloads_once (english malayalam manglish : jsstring)
        (o o_list : FetchOutcome) (w : World) :
  result (addDocument english malayalam manglish o o_list) w = Normal true ->
  requests (run (addDocument english malayalam manglish o o_list) w)
    = requests w ++ [add_request english malayalam manglish; documents_request] /\
  listDocuments_calls (requests (run (addDocument english malayalam manglish o o_list) w))
    = S (listDocuments_calls (requests w)).
Proof.
  unfold result, run. rewrite addDocument_spec.
  destruct (add_outcome o) as [e|id]; cbn [fst snd]; [discriminate|]. intros _.
  rewrite loadDocuments_requests. cbn [requests set_logsContainer set_chatMessages set_requests].
  rewrite <- app_assoc. split; [reflexivity|].
  rewrite listDocuments_calls_app.
  replace (listDocuments_calls ([add_request english malayalam manglish] ++ [documents_request]))
    with 1%nat by (vm_compute; reflexivity).
  lia.
Qed.

Lemma addDocument_success_reloads_once_witness :
  let o := Fulfilled (mkResponse 200 (Normal (JObj [(js "id", JNum 7)]))) in
  listDocuments_calls
    (requests (run (addDocument (js "Library hours") (js "ലൈബ്രറി സമയം") [] o network_down)
                   fresh_world)) = 1%nat.
Proof.
  intros o.
  apply (addDocument_success_reloads_once (js "Library hours") (js "ലൈബ്രറി സമയം") [] o
           network_down fresh_world).
  reflexivity.
Defined.

(** An [addDocument] that fails issues no GET of the documents. *)
Lemma addDocument_failure_no_reload (english malayalam manglish : jsstring)
      (o o_list : FetchOutcome) (w : World) :
  result (addDocument english malayalam manglish o o_list) w = Normal false ->
  requests (run (addDocument english malayalam manglish o o_list) w)
    = requests w ++ [add_request english malayalam manglish].
Proof.
  unfold result, run. rewrite addDocument_spec.
  destruct (add_outcome o) as [e|id]; cbn [fst snd]; [reflexivity | discriminate].
Qed.

Lemma addDocument_never_throws (english malayalam manglish : jsstring)
      (o o_list : FetchOutcome) :
  never_throws (addDocument english malayalam manglish o o_list).
Proof.
  intros w. unfold result. rewrite addDocument_spec.
  destruct (add_outcome o); eexists; reflexivity.
Qed.

(** C6. A submission in which the English or the Malayalam field is empty
    once trimmed issues no request: the handler alerts and returns, and
    neither [addDocument] nor anything else reaches the network. *)
Theorem onFormSubmit_missing_field_no_request (host : Host) (o o_list : FetchOutcome)
        (w : World) :
  trim (englishText (form w)) = [] \/ trim (malayalamText (form w)) = [] ->
  result (onFormSubmit host o o_list) w = Normal tt /\
  requests (run (onFormSubmit host o o_list) w) = requests w /\
  run (onFormSubmit host o o_list) w = set_alerts (alerts w ++ [fill_message]) w.
Proof.
  intros H. unfold result, run, onFormSubmit, bind, gets, alert, modify.
  destruct H as [H|H]; rewrite H; cbn.
  - auto.
  - rewrite orb_true_r. auto.
Qed.

Lemma onFormSubmit_missing_field_no_request_witness :
  let w := set_form (mkForm (js "Library hours") (js "   ") (js "library samayam")) fresh_world in
  requests (run (onFormSubmit blank_host one_document one_document) w) = [].
Proof.
  intros w.
  apply (onFormSubmit_missing_field_no_request blank_host one_document one_document w).
  right. reflexivity.
Defined.

Lemma onFormSubmit_valid (host : Host) (o o_list : FetchOutcome) (w : World) :
  trim (englishText (form w)) <> [] -> trim (malayalamText (form w)) <> [] ->
  onFormSubmit host o o_list w =
  let english := trim (englishText (form w)) in
  let malayalam := trim (malayalamText (form w)) in
  let manglish := trim (manglishText (form w)) in
  match add_outcome o with
  | inl _ => (Normal tt, run (addDocument english malayalam manglish o o_list) w)
  | inr _ => (Normal tt, set_form (form_defaults host)
                           (run (addDocument english malayalam manglish o o_list) w))
  end.
Proof.
  intros He Hm. unfold onFormSubmit, bind at 1, gets at 1, bind at 1, gets at 1,
    bind at 1, gets at 1.
  destruct (trim (englishText (form w))) as [|u1 t1] eqn:E1; [congruence|].
  destruct (trim (malayalamText (form w))) as [|u2 t2] eqn:E2; [congruence|].
  cbn [truthy negb orb]. cbv zeta. unfold bind, run.
  rewrite addDocument_spec.
  destruct (add_outcome o); reflexivity.
Qed.

(** C9. A submission that passes validation: when [addDocument] succeeds
    the form is reset, which clears the fields of a form whose defaults are
    empty; when it fails the fields are as before and the error is shown as
    one system message, with one error entry in the log. *)
Theorem onFormSubmit_clears_on_success_only (host : Host) (o o_list : FetchOutcome)
        (w : World) :
  trim (englishText (form w)) <> [] -> trim (malayalamText (form w)) <> [] ->
  let success := result (addDocument (trim (englishText (form w)))
                                     (trim (malayalamText (form w)))
                                     (trim (manglishText (form w))) o o_list) w in
  let w' := run (onFormSubmit host o o_list) w in
  result (onFormSubmit host o o_list) w = Normal tt /\
  (success = Normal true \/ success = Normal false) /\
  (success = Normal true ->
     form w' = form_defaults host /\
     (form_defaults host = blank_form -> form w' = mkForm [] [] [])) /\
  (success = Normal false ->
     form w' = form w /\
     exists e,
       chatMessages w' = chatMessages w ++
         [mkMessage system (js "Assistant") (js "❌ Error adding document: " ++ err_message e)
                    (matches_malayalam (js "❌ Error adding document: " ++ err_message e))] /\
       logsContainer w' = logsContainer w ++
         [mkLog error (js "Error adding document: " ++ err_message e)]).
Proof.
  intros He Hm success w'. subst success w'.
  unfold result at 1, run. rewrite (onFormSubmit_valid host o o_list w He Hm). cbv zeta.
  unfold result, run. rewrite addDocument_spec.
  destruct (add_outcome o) as [e|id]; cbn [fst snd].
  - split; [reflexivity|]. split; [now right|]. split; [discriminate|].
    intros _. split; [reflexivity|]. exists e. split; reflexivity.
  - split; [reflexivity|]. split; [now left|]. split; [|discriminate].
    intros _. split; [reflexivity|]. intros Hb. cbn [form set_form]. now rewrite Hb.
Qed.

Lemma onFormSubmit_clears_on_success_only_witness :
  let w := set_form (mkForm (js "Library hours") (js "ലൈബ്രറി സമയം") []) fresh_world in
  form (run (onFormSubmit blank_host
               (Fulfilled (mkResponse 201 (Normal (JObj [(js "id", JNum 7)])))) network_down) w)
    = mkForm [] [] [] /\
  form (run (onFormSubmit blank_host network_down network_down) w) = form w.
Proof.
  intros w. split.
  - destruct (onFormSubmit_clears_on_success_only blank_host
                (Fulfilled (mkResponse 201 (Normal (JObj [(js "id", JNum 7)])))) network_down w)
      as (_ & _ & Hyes & _); [vm_compute; discriminate | vm_compute; discriminate |].
    apply Hyes; reflexivity.
  - destruct (onFormSubmit_clears_on_success_only blank_host network_down network_down w)
      as (_ & _ & _ & Hno); [vm_compute; discriminate | vm_compute; discriminate |].
    apply Hno. reflexivity.
Defined.

(* ================================================================== *)
(** ** voiceQuery: sendAudioToBackend *)
(* ================================================================== *)

Lemma voice_error_text_plain :
  matches_malayalam (js "Error processing voice input") = false.
Proof. vm_compute. reflexivity. Qed.

Lemma sendAudioToBackend_transport_failure (audioBlob : list Z) (o : FetchOutcome)
      (e : JsError) (w : World) :
  transport_failure o = Some e ->
  sendAudioToBackend audioBlob o w =
  (Normal tt,
   set_chatMessages
     (chatMessages w ++ [mkMessage bot (js "Assistant") voice_error_text false])
     (set_console (console w ++ [ConsoleError (js "Error sending audio:") (err_message e)])
        (set_requests
           (requests w ++ [mkRequest POST (API_BASE_URL ++ js "/api/voice-query")
                                     (AudioForm audioBlob)]) w))).
Proof.
  assert (Hh : forall w0,
    (console_error "Error sending audio:" e ;;
     addMessage bot (JStr (js "Error processing voice input"))) w0 =
    (Normal tt,
     set_chatMessages
       (chatMessages w0 ++ [mkMessage bot (js "Assistant") voice_error_text false])
       (set_console (console w0 ++ [ConsoleError (js "Error sending audio:") (err_message e)])
          w0))).
  { intros w0. unfold bind, console_error, modify. rewrite addMessage_string.
    unfold voice_error_text. rewrite voice_error_text_plain. reflexivity. }
  unfold sendAudioToBackend.
  destruct o as [e0|r]; cbn [transport_failure].
  - intros [= ->].
    erewrite try_catch_thrown;
      [|erewrite bind_thrown by apply fetch_rejected; reflexivity].
    rewrite Hh. reflexivity.
  - destruct (json_body r) as [d|e0] eqn:E; [discriminate|]. intros [= ->].
    erewrite try_catch_bind_normal by apply fetch_fulfilled.
    erewrite try_catch_thrown;
      [|erewrite bind_thrown by (unfold response_json, await; now rewrite E); reflexivity].
    rewrite Hh. reflexivity.
Qed.

Lemma sendAudioToBackend_never_throws (audioBlob : list Z) (o : FetchOutcome) :
  never_throws (sendAudioToBackend audioBlob o).
Proof.
  apply never_throws_try_catch. intros e.
  apply never_throws_bind; [apply never_throws_modify|].
  intros _. apply never_throws_addMessage_string.
Qed.

Lemma sendMessage_never_throws (host : Host) (o : FetchOutcome) :
  never_throws (sendMessage host o).
Proof.
  intros w. unfold result, sendMessage. unfold bind at 1, gets at 1.
  destruct (trim (inputValue w)) as [|u t]; [exists tt; reflexivity|].
  revert w. apply never_throws_bind; [apply never_throws_addMessage_string|].
  intros _. apply never_throws_bind; [apply never_throws_modify|].
  intros _. apply never_throws_try_catch. intros e.
  apply never_throws_bind; [apply never_throws_modify|].
  intros _. apply never_throws_bind; [apply never_throws_addMessage_string|].
  intros _. apply never_throws_modify.
Qed.

(* ================================================================== *)
(** ** The four operations on failure *)
(* ================================================================== *)

(** C1, as stated, fails: on a network error [loadDocuments] shows no
    message to the user (nothing in the chat, no alert), and
    [sendAudioToBackend] writes no log entry. *)
Lemma failure_rule_not_uniform :
  let e := mkError (js "TypeError") (js "Failed to fetch") in
  ~ shows_message fresh_world (run (loadDocuments (Rejected e)) fresh_world) /\
  alerts (run (loadDocuments (Rejected e)) fresh_world) = [] /\
  ~ logs_error_text e fresh_world (run (sendAudioToBackend [82; 73; 70; 70] (Rejected e)) fresh_world) /\
  logsContainer (run (sendAudioToBackend [82; 73; 70; 70] (Rejected e)) fresh_world) = [].
Proof.
  cbv zeta. repeat split.
  - intros (m & rest & H). vm_compute in H. discriminate.
  - intros (entry & prefix & H & _). vm_compute in H. discriminate.
Qed.

(** C1, amended. No operation lets an exception out, however its request
    settles.  On a failure, query appends the apology as a bot message and
    logs one error entry with the error text; addDocument returns false,
    appends one system message and logs one error entry, both with the
    error text; listDocuments, when the fetch is rejected or the body is
    not JSON, logs one error entry with the error text and shows nothing to
    the user; voiceQuery, in the same cases, appends one bot message and
    logs nothing. *)
Theorem operations_contain_failures (host : Host) (english malayalam manglish : jsstring)
        (audioBlob : list Z) (o o_list : FetchOutcome) (w : World) :
  (never_throws (sendMessage host o) /\
   never_throws (loadDocuments o) /\
   never_throws (addDocument english malayalam manglish o o_list) /\
   never_throws (sendAudioToBackend audioBlob o)) /\
  (trim (inputValue w) <> [] -> failed o ->
     let w' := run (sendMessage host o) w in
     chatMessages w' =
       chatMessages w ++ [mkMessage user (js "You") (trim (inputValue w))
                                    (matches_malayalam (trim (inputValue w)));
                          mkMessage bot (js "Assistant") sorry_text false] /\
     logsContainer w' = logsContainer w ++ [mkLog error (js "Error: " ++ failure_text o)]) /\
  (failed o ->
     let w' := run (addDocument english malayalam manglish o o_list) w in
     result (addDocument english malayalam manglish o o_list) w = Normal false /\
     chatMessages w' =
       chatMessages w ++
         [mkMessage system (js "Assistant") (js "❌ Error adding document: " ++ failure_text o)
                    (matches_malayalam (js "❌ Error adding document: " ++ failure_text o))] /\
     logsContainer w' =
       logsContainer w ++ [mkLog error (js "Error adding document: " ++ failure_text o)]) /\
  (forall e, transport_failure o = Some e ->
     let w' := run (loadDocuments o) w in
     chatMessages w' = chatMessages w /\ alerts w' = alerts w /\
     logsContainer w' =
       logsContainer w ++ [mkLog error (js "Error loading documents: " ++ err_message e)]) /\
  (forall e, transport_failure o = Some e ->
     let w' := run (sendAudioToBackend audioBlob o) w in
     chatMessages w' = chatMessages w ++ [mkMessage bot (js "Assistant") voice_error_text false] /\
     logsContainer w' = logsContainer w).
Proof.
  split; [|split; [|split; [|split]]].
  - split; [apply sendMessage_never_throws|].
    split; [apply loadDocuments_never_throws|].
    split; [apply addDocument_never_throws | apply sendAudioToBackend_never_throws].
  - intros Ht Hf. destruct (sendMessage_failed host o w Ht Hf) as (_ & Hc & Hl & _).
    split; assumption.
  - intros Hf. unfold result, run. rewrite addDocument_spec.
    assert (Ho : exists e, add_outcome o = inl e /\ err_message e = failure_text o).
    { destruct o as [e|r]; cbn in *; [eexists; split; reflexivity|].
      rewrite Hf. eexists; split; reflexivity. }
    destruct Ho as (e & -> & He). cbn [fst snd]. unfold add_error_text. rewrite He.
    repeat split.
  - intros e He. unfold run. rewrite (loadDocuments_transport_failure o w He).
    repeat split.
  - intros e He. unfold run. rewrite (sendAudioToBackend_transport_failure audioBlob o w He).
    repeat split.
Qed.

Lemma operations_contain_failures_witness :
  let w := set_inputValue (js "What are the library hours?") fresh_world in
  List.length (chatMessages (run (sendMessage blank_host network_down) w)) = 2%nat /\
  result (addDocument (js "a") (js "b") [] network_down network_down) w = Normal false /\
  chatMessages (run (loadDocuments network_down) w) = [] /\
  logsContainer (run (sendAudioToBackend [] network_down) w) = [].
Proof.
  intros w.
  destruct (operations_contain_failures blank_host (js "a") (js "b") [] [] network_down
              network_down w) as (_ & Hq & Ha & Hl & Hv).
  split; [|split; [|split]].
  - destruct Hq as [Hc _]; [vm_compute; discriminate | exact I |].
    rewrite Hc. reflexivity.
  - apply Ha. exact I.
  - apply (Hl (mkError (js "TypeError") (js "Failed to fetch"))). reflexivity.
  - apply (Hv (mkError (js "TypeError") (js "Failed to fetch"))). reflexivity.
Defined.

(* ================================================================== *)
(** ** The language selector *)
(* ================================================================== *)

Lemma is_str_true (v : jsval) (s : jsstring) : is_str v s = true <-> v = JStr s.
Proof.
  destruct v; cbn; try (split; discriminate).
  rewrite jseqb_eq. split; [now intros -> | now intros [= ->]].
Qed.

Lemma is_str_false (v : jsval) (s : jsstring) : is_str v s = false <-> v <> JStr s.
Proof.
  rewrite <- is_str_true. destruct (is_str v s); split; congruence.
Qed.

Lemma updateRecognitionLanguage_spec (w : World) :
  updateRecognitionLanguage w =
  (Normal tt,
   match recognition w with
   | None => w
   | Some r => set_recognition (Some (mkRecognition (locale_of (currentLanguage w)) (started r))) w
   end).
Proof.
  unfold updateRecognitionLanguage, bind, gets, locale_of. cbn.
  destruct (recognition w) as [r|]; [|reflexivity].
  cbn. destruct (is_str (currentLanguage w) (js "ml")); [reflexivity|].
  destruct (is_str (currentLanguage w) (js "manglish")); reflexivity.
Qed.

Lemma onLangClick_recognition (data_lang : jsval) (textContent : jsstring) (w : World) :
  result (onLangClick data_lang textContent) w = Normal tt /\
  currentLanguage (run (onLangClick data_lang textContent) w) = data_lang /\
  recognition (run (onLangClick data_lang textContent) w) =
    option_map (fun r => mkRecognition (locale_of data_lang) (started r)) (recognition w).
Proof.
  unfold result, run, onLangClick.
  erewrite bind_normal by reflexivity.
  erewrite bind_normal by apply updateRecognitionLanguage_spec.
  erewrite bind_normal by reflexivity.
  cbn [recognition currentLanguage set_currentLanguage].
  destruct (recognition w) as [r|] eqn:Hr;
    cbn [currentLanguage set_currentLanguage set_recognition option_map];
    (destruct (is_str data_lang (js "ml"));
     [|destruct (is_str data_lang (js "manglish"))]);
    erewrite bind_normal by reflexivity;
    rewrite addMessage_string; repeat split; cbn; assumption.
Qed.

(** The voice button on an idle recognition object starts a session, and
    on a started one leaves the world as it is: [stop()] is asked for when
    [isRecording] is set, and otherwise the browser refuses the second
    [start()]. *)
Lemma toggleVoiceRecording_starts (w : World) (r : Recognition) :
  recognition w = Some r -> isRecording w = false -> started r = false ->
  toggleVoiceRecording w = (Normal tt, set_recognition (Some (mkRecognition (lang r) true)) w).
Proof.
  intros Hr Hi Hs. unfold toggleVoiceRecording, bind, gets, recognition_start, modify.
  now rewrite Hr, Hi, Hs.
Qed.

Lemma toggleVoiceRecording_while_active (w : World) :
  session_active w = true ->
  run toggleVoiceRecording w = w /\
  (result toggleVoiceRecording w = Normal tt /\ isRecording w = true \/
   result toggleVoiceRecording w = Thrown InvalidStateError /\ isRecording w = false).
Proof.
  unfold session_active, run, result, toggleVoiceRecording, bind, gets,
    recognition_start, recognition_stop, throw, ret.
  destruct (recognition w) as [r|]; [|discriminate]. intros Hs.
  destruct (isRecording w); cbn; [auto|].
  rewrite Hs. cbn. auto.
Qed.

(** C5. Setting the language (a click on a language button) sets the locale
    of the recognition object: 'ml' gives 'ml-IN', 'manglish' gives 'en-IN',
    and every other value, 'auto' among them, gives 'en-US'; a start of the
    recognition that follows runs under that locale. *)
Theorem setLanguage_recognition_locale (data_lang : jsval) (textContent : jsstring)
        (w : World) (r : Recognition) :
  recognition w = Some r ->
  let w' := run (onLangClick data_lang textContent) w in
  exists r',
    recognition w' = Some r' /\ started r' = started r /\
    (data_lang = JStr (js "ml") -> lang r' = js "ml-IN") /\
    (data_lang = JStr (js "manglish") -> lang r' = js "en-IN") /\
    (data_lang <> JStr (js "ml") -> data_lang <> JStr (js "manglish") ->
       lang r' = js "en-US") /\
    (isRecording w = false -> started r = false ->
       recognition (run toggleVoiceRecording w') = Some (mkRecognition (lang r') true)).
Proof.
  intros Hr w'. subst w'.
  destruct (onLangClick_recognition data_lang textContent w) as (_ & _ & Hrec).
  rewrite Hr in Hrec. cbn in Hrec.
  eexists. split; [exact Hrec|]. cbn [started lang]. split; [reflexivity|].
  unfold locale_of. repeat split.
  - intros ->. reflexivity.
  - intros ->. reflexivity.
  - intros H1 H2. apply is_str_false in H1, H2. now rewrite H1, H2.
  - intros Hi Hs.
    assert (Hrecording : isRecording (run (onLangClick data_lang textContent) w) = false).
    { rewrite <- Hi.
      assert (H : preserves isRecording (onLangClick data_lang textContent)) by frame.
      apply H. }
    unfold run at 1.
    now rewrite (toggleVoiceRecording_starts _ Hrec Hrecording Hs).
Qed.

Lemma setLanguage_recognition_locale_witness :
  let w := set_recognition (Some (mkRecognition (js "en-US") false)) fresh_world in
  option_map lang (recognition (run (onLangClick (JStr (js "ml")) (js "Malayalam")) w))
    = Some (js "ml-IN") /\
  option_map lang (recognition (run (onLangClick (JStr (js "manglish")) (js "Manglish")) w))
    = Some (js "en-IN") /\
  option_map lang (recognition (run (onLangClick (JStr (js "auto")) (js "Auto")) w))
    = Some (js "en-US").
Proof.
  intros w. split; [|split].
  - destruct (setLanguage_recognition_locale (JStr (js "ml")) (js "Malayalam") w eq_refl)
      as (r' & -> & _ & H & _). cbn. f_equal. apply H. reflexivity.
  - destruct (setLanguage_recognition_locale (JStr (js "manglish")) (js "Manglish") w eq_refl)
      as (r' & -> & _ & _ & H & _). cbn. f_equal. apply H. reflexivity.
  - destruct (setLanguage_recognition_locale (JStr (js "auto")) (js "Auto") w eq_refl)
      as (r' & -> & _ & _ & _ & H & _). cbn. f_equal. apply H; vm_compute; discriminate.
Defined.

(** Without a recognition object there is no locale to set: the click
    leaves [recognition] null. *)
Lemma setLanguage_without_recognition (data_lang : jsval) (textContent : jsstring)
      (w : World) :
  recognition w = None ->
  recognition (run (onLangClick data_lang textContent) w) = None.
Proof.
  intros Hr. destruct (onLangClick_recognition data_lang textContent w) as (_ & _ & H).
  now rewrite H, Hr.
Qed.

(* ================================================================== *)
(** ** Voice sessions *)
(* ================================================================== *)

Lemma handle_recorders (host : Host) (ev : Event) : preserves recorders (handle host ev).
Proof. destruct ev; frame. Qed.

Lemma handle_quiet_isRecording (host : Host) (ev : Event) :
  quiet ev = true -> preserves isRecording (handle host ev).
Proof. destruct ev; try discriminate; intros _; frame. Qed.

Lemma handle_quiet_recognition (host : Host) (ev : Event) :
  quiet ev = true -> preserves recognition (handle host ev).
Proof. destruct ev; try discriminate; intros _; frame. Qed.

Lemma loaded_invariant (host : Host) (o_docs o_ping : FetchOutcome) (w : World) :
  script_evaluated w -> session_invariant (run (onDOMContentLoaded host o_docs o_ping) w).
Proof.
  intros (_ & Hi & _ & Hrec & _). split.
  - rewrite <- Hrec.
    assert (H : preserves recorders (onDOMContentLoaded host o_docs o_ping)) by frame.
    apply H.
  - assert (H : preserves isRecording (onDOMContentLoaded host o_docs o_ping)) by frame.
    rewrite H, Hi. discriminate.
Qed.

Lemma handle_invariant (host : Host) (ev : Event) (w : World) :
  session_invariant w -> enabled w ev = true ->
  session_invariant (run (handle host ev) w).
Proof.
  intros [Hrec Hinv] Hen. split; [now rewrite handle_recorders|].
  destruct (quiet ev) eqn:Hq.
  - unfold session_active.
    rewrite (handle_quiet_isRecording host ev Hq), (handle_quiet_recognition host ev Hq).
    exact Hinv.
  - destruct ev; try discriminate Hq; cbn [handle enabled] in *.
    + (* a language button *)
      assert (H : preserves isRecording (onLangClick data_lang textContent)) by frame.
      rewrite H. intros Hi. specialize (Hinv Hi). unfold session_active in *.
      destruct (onLangClick_recognition data_lang textContent w) as (_ & _ & ->).
      destruct (recognition w); [exact Hinv | discriminate].
    + (* the voice button *)
      assert (H : preserves isRecording toggleVoiceRecording) by frame.
      rewrite H. intros Hi. specialize (Hinv Hi).
      now rewrite (proj1 (toggleVoiceRecording_while_active w Hinv)).
    + (* onstart *)
      intros _. unfold session_active in *.
      assert (H : preserves recognition recognition_onstart) by frame.
      now rewrite H.
    + (* onend *)
      unfold run, session_over, recognition_onend, bind, modify. cbn. discriminate.
Qed.

Lemma reachable_invariant (host : Host) (w : World) :
  reachable host w -> session_invariant w.
Proof.
  induction 1 as [w o_docs o_ping Hw | w ev _ IH Hen].
  - now apply loaded_invariant.
  - now apply handle_invariant.
Qed.

(** C3, as stated, fails for the capture variant: [startMediaRecording]
    looks at no flag, so a call made while a capture session is active, or
    while the recognition is listening, completes normally and leaves two
    sessions active. *)
Lemma startMediaRecording_second_session :
  let capturing := run (startMediaRecording (Normal tt)) fresh_world in
  (active_sessions capturing = 1%nat /\ isRecording capturing = true /\
   result (startMediaRecording (Normal tt)) capturing = Normal tt /\
   active_sessions (run (startMediaRecording (Normal tt)) capturing) = 2%nat) /\
  (active_sessions listening_page = 1%nat /\ isRecording listening_page = true /\
   result (startMediaRecording (Normal tt)) listening_page = Normal tt /\
   active_sessions (run (startMediaRecording (Normal tt)) listening_page) = 2%nat).
Proof. vm_compute. repeat split. Qed.

(** C3, amended. In every state the page reaches through the listeners the
    script registers, no capture session exists and at most one recognition
    session is active, and [isRecording] is set only during a session; a
    click on the voice button while a session is active begins no second
    one and changes nothing: it asks the session to stop when [isRecording]
    is set, and otherwise the browser refuses the second start. *)
Theorem one_recognition_session (host : Host) (w : World) :
  reachable host w ->
  recorders w = 0%nat /\
  (active_sessions w <= 1)%nat /\
  (isRecording w = true -> session_active w = true) /\
  (session_active w = true ->
     run toggleVoiceRecording w = w /\
     (result toggleVoiceRecording w = Normal tt /\ isRecording w = true \/
      result toggleVoiceRecording w = Thrown InvalidStateError /\ isRecording w = false)).
Proof.
  intros Hreach. destruct (reachable_invariant Hreach) as [Hrec Hinv].
  split; [exact Hrec|]. split; [|split; [exact Hinv|]].
  - unfold active_sessions. rewrite Hrec. destruct (session_active w); lia.
  - apply toggleVoiceRecording_while_active.
Qed.

Lemma one_recognition_session_witness :
  session_active listening_page = true /\
  (active_sessions listening_page <= 1)%nat /\
  run toggleVoiceRecording listening_page = listening_page.
Proof.
  assert (Hreach : reachable blank_host listening_page).
  { unfold listening_page.
    apply reach_event; [apply reach_event; [apply reach_loaded|]|].
    - vm_compute. repeat split.
    - vm_compute. reflexivity.
    - vm_compute. reflexivity. }
  destruct (one_recognition_session Hreach) as (_ & Hle & _ & Htoggle).
  split; [vm_compute; reflexivity|]. split; [exact Hle|].
  apply Htoggle. vm_compute. reflexivity.
Defined.

(* ================================================================== *)
(** ** Runs on concrete pages *)
(* ================================================================== *)

Example js_ascii : js "ml-IN" = [109; 108; 45; 73; 78].
Proof. vm_compute. reflexivity. Qed.

Example js_malayalam : js "നമസ്കാരം" = utf16_encode namaskaram.
Proof. vm_compute. reflexivity. Qed.

Example js_astral : js "😀" = [55357; 56832].
Proof. vm_compute. reflexivity. Qed.

Example trim_both_ends : trim (js "  hi there 	") = js "hi there".
Proof. vm_compute. reflexivity. Qed.

Example split_pipe : split 124 (js "a|b||c") = [js "a"; js "b"; []; js "c"].
Proof. vm_compute. reflexivity. Qed.

Example decimal_status : decimal 404 = js "404" /\ decimal (-7) = js "-7" /\ decimal 0 = js "0".
Proof. vm_compute. repeat split. Qed.

Example to_string_array :
  to_string (JArr [JNum 1; JNull; JStr (js "a"); JArr [JBool true; JUndefined]]) = js "1,,a,true,".
Proof. vm_compute. reflexivity. Qed.

(** The scenario of the specification: a question under 'auto', an answer
    without audio. *)
Example library_hours_scenario :
  let w := set_inputValue (js "What are the library hours?") fresh_world in
  let reply := Fulfilled (mkResponse 200 (Normal (JObj
                 [(js "answer", JStr (js "9am–8pm")); (js "language", JStr (js "en"))]))) in
  let w' := run (sendMessage blank_host reply) w in
  requests w' =
    [mkRequest POST (js "http://localhost:8000/api/query")
       (JsonBody (JObj [(js "text", JStr (js "What are the library hours?"));
                        (js "language", JNull)]))] /\
  map msg_sender (chatMessages w') = [user; bot] /\
  map msg_text (chatMessages w') = [js "What are the library hours?"; js "9am–8pm"] /\
  map malayalam_text (chatMessages w') = [false; false] /\
  spoken w' = [mkUtterance (js "9am–8pm") (js "en-US")] /\
  played w' = [] /\
  inputValue w' = [] /\
  map log_type (logsContainer w') = [info].
Proof. vm_compute. repeat split. Qed.

(** A reply of status 200 without an answer: the message "undefined" is
    appended before [text.match] throws, and the apology follows. *)
Example reply_without_answer :
  let w := set_inputValue (js "hello") fresh_world in
  let w' := run (sendMessage blank_host (Fulfilled (mkResponse 200 (Normal (JObj []))))) w in
  map msg_text (chatMessages w') = [js "hello"; js "undefined"; sorry_text] /\
  map log_type (logsContainer w') = [error].
Proof. vm_compute. repeat split. Qed.

(** A list that breaks at its second entry: the first stays rendered. *)
Example documents_partly_rendered :
  let reply := Fulfilled (mkResponse 200 (Normal (JObj
                 [(js "documents", JArr [JObj [(js "text", JStr (js "a | b"))]; JNull])]))) in
  let w' := run (loadDocuments reply) fresh_world in
  documentsList w' = [mkDoc 1 (js "a") (Some (js "b")) None] /\
  map log_type (logsContainer w') = [error].
Proof. vm_compute. repeat split. Qed.

(** A status that is not 2xx with a well-formed list is rendered as a
    success: [loadDocuments] does not look at the status. *)
Example documents_status_ignored :
  let reply := Fulfilled (mkResponse 500 (Normal (JObj
                 [(js "documents", JArr [JObj [(js "text", JStr (js "a"))]])]))) in
  let w' := run (loadDocuments reply) fresh_world in
  documentsList w' = [mkDoc 1 (js "a") None None] /\
  map log_type (logsContainer w') = [info].
Proof. vm_compute. repeat split. Qed.

(* ================================================================== *)
(** ** Append-only parts of the page *)
(* ================================================================== *)

Section Extends.

Context {X : Type} (f : World -> list X).

Lemma extends_of_preserves {A} (m : Js A) : preserves f m -> extends f m.
Proof. intros H w. exists []. now rewrite app_nil_r. Qed.

Lemma extends_bind {A B} (m : Js A) (k : A -> Js B) :
  extends f m -> (forall a, extends f (k a)) -> extends f (bind m k).
Proof.
  intros Hm Hk w. destruct (Hm w) as [n1 H1]. unfold run, bind in *.
  destruct (m w) as [[a|e] w1]; cbn in *; [|now exists n1].
  destruct (Hk a w1) as [n2 H2]. unfold run in H2.
  exists (n1 ++ n2). now rewrite H2, H1, app_assoc.
Qed.

Lemma extends_try_catch {A} (m : Js A) (handler : JsError -> Js A) :
  extends f m -> (forall e, extends f (handler e)) -> extends f (try_catch m handler).
Proof.
  intros Hm Hh w. destruct (Hm w) as [n1 H1]. unfold run, try_catch in *.
  destruct (m w) as [[a|e] w1]; cbn in *; [now exists n1|].
  destruct (Hh e w1) as [n2 H2]. unfold run in H2.
  exists (n1 ++ n2). now rewrite H2, H1, app_assoc.
Qed.

Lemma extends_spawn (m : Js unit) :
  (forall x w, f (set_unhandled x w) = f w) -> extends f m -> extends f (spawn m).
Proof.
  intros Hu Hm w. destruct (Hm w) as [n1 H1]. unfold run, spawn in *.
  destruct (m w) as [[a|e] w1]; cbn in *; exists n1; [exact H1|].
  now rewrite Hu.
Qed.

End Extends.

(** [addMessage] on a value that is not a string: the template may throw
    before anything is shown; otherwise the value is shown as rendered, and
    [text.match] throws. *)
Lemma addMessage_template_throws (sender : Sender) (v : jsval) (w : World) :
  template_throws v = true -> addMessage sender v w = (Thrown template_error, w).
Proof.
  intros H. unfold addMessage, bind, template. now rewrite H.
Qed.

Lemma addMessage_not_string (sender : Sender) (v : jsval) (w : World) :
  template_throws v = false -> is_string v = false ->
  addMessage sender v w =
  (Thrown (not_a_string_error v),
   set_chatMessages
     (chatMessages w ++ [mkMessage sender (sender_name sender) (to_string v) false]) w).
Proof.
  intros Ht Hs. unfold addMessage, bind at 1, template. rewrite Ht.
  destruct v; try discriminate;
    unfold bind, modify, string_receiver, throw, ret; reflexivity.
Qed.

(** [addMessage] appends one element and, when it marks a message, marks
    the one it has just appended: the messages already shown stay. *)
Lemma extends_addMessage (sender : Sender) (text : jsval) :
  extends chatMessages (addMessage sender text).
Proof.
  intros w. unfold run.
  destruct (template_throws text) eqn:Ht.
  - rewrite (@addMessage_template_throws sender text w Ht). exists []. cbn.
    now rewrite app_nil_r.
  - destruct (is_string text) eqn:Hs.
    + destruct text; try discriminate. rewrite addMessage_string. eexists. reflexivity.
    + rewrite (@addMessage_not_string sender text w Ht Hs). eexists. reflexivity.
Qed.

Lemma extends_logToSystem (message : jsstring) (type : LogType) :
  extends logsContainer (logToSystem message type).
Proof. intros w. eexists. reflexivity. Qed.

(** Decides that a computation only appends, leaf by leaf. *)
Ltac grow :=
  repeat match goal with
  | |- forall _, _ => intro
  | |- extends _ ((fun _ => _) _) => cbv beta
  | |- extends _ (bind _ _) => apply extends_bind
  | |- extends _ (try_catch _ _) => apply extends_try_catch
  | |- extends _ (spawn _) => apply extends_spawn; [reflexivity|]
  | |- extends chatMessages (addMessage _ _) => apply extends_addMessage
  | |- extends logsContainer (logToSystem _ _) => apply extends_logToSystem
  | |- extends _ ?m => solve [apply extends_of_preserves; frame]
  | |- extends _ (if ?b then _ else _) => destruct b
  | |- extends _ (match ?x with _ => _ end) => destruct x
  | |- extends _ ?m => let h := head_of m in unfold h
  end.

Lemma handle_extends_chat (host : Host) (ev : Event) :
  extends chatMessages (handle host ev).
Proof. destruct ev; grow. Qed.

Lemma handle_extends_logs (host : Host) (ev : Event) :
  extends logsContainer (handle host ev).
Proof. destruct ev; grow. Qed.

Lemma onDOMContentLoaded_extends (host : Host) (o_docs o_ping : FetchOutcome) :
  extends chatMessages (onDOMContentLoaded host o_docs o_ping) /\
  extends logsContainer (onDOMContentLoaded host o_docs o_ping).
Proof. repeat split; grow. Qed.

(** X1. The conversation log is append-only: whatever event the page
    handles, and however the requests it causes settle, the messages shown
    before are all still there, unchanged and in their order, followed by
    the new ones.  The same holds when the page loads. *)
Theorem conversation_append_only (host : Host) (w : World) :
  (forall ev, exists new,
     chatMessages (run (handle host ev) w) = chatMessages w ++ new) /\
  (forall o_docs o_ping, exists new,
     chatMessages (run (onDOMContentLoaded host o_docs o_ping) w) = chatMessages w ++ new).
Proof.
  split.
  - intros ev. apply handle_extends_chat.
  - intros o_docs o_ping. apply onDOMContentLoaded_extends.
Qed.

(** X2. The system log is append-only as well: whatever event the page
    handles and when it loads, the entries written before are all still
    there, in their order, followed by the new ones. *)
Theorem system_log_append_only (host : Host) (w : World) :
  (forall ev, exists new,
     logsContainer (run (handle host ev) w) = logsContainer w ++ new) /\
  (forall o_docs o_ping, exists new,
     logsContainer (run (onDOMContentLoaded host o_docs o_ping) w) = logsContainer w ++ new).
Proof.
  split.
  - intros ev. apply handle_extends_logs.
  - intros o_docs o_ping. apply onDOMContentLoaded_extends.
Qed.

(* ================================================================== *)
(** ** Nothing escapes a handler *)
(* ================================================================== *)

Lemma never_throws_ret {A} (a : A) : never_throws (ret a).
Proof. intros w. exists a. reflexivity. Qed.

Lemma never_throws_gets {A} (g : World -> A) : never_throws (gets g).
Proof. intros w. exists (g w). reflexivity. Qed.

Lemma preserves_spawn_total {X} (f : World -> X) (m : Js unit) :
  never_throws m -> preserves f m -> preserves f (spawn m).
Proof.
  intros Ht Hm w. unfold run. rewrite (spawn_of_never_throws w Ht). apply Hm.
Qed.

Lemma never_throws_onFormSubmit (host : Host) (o o_list : FetchOutcome) :
  never_throws (onFormSubmit host o o_list).
Proof.
  unfold onFormSubmit.
  do 3 (apply never_throws_bind; [apply never_throws_gets | intro]).
  match goal with |- never_throws (if ?b then _ else _) => destruct b end.
  - apply never_throws_modify.
  - apply never_throws_bind; [apply addDocument_never_throws|].
    intros [|]; [apply never_throws_modify | apply never_throws_ret].
Qed.

(** Decides that a computation never throws, for the handlers whose
    throwing parts sit in [try] blocks or in dropped promises. *)
Ltac total :=
  repeat match goal with
  | |- forall _, _ => intro
  | |- never_throws ((fun _ => _) _) => cbv beta
  | |- never_throws (bind _ _) => apply never_throws_bind
  | |- never_throws (try_catch _ _) => apply never_throws_try_catch
  | |- never_throws (spawn _) => apply spawn_never_throws
  | |- never_throws (ret _) => apply never_throws_ret
  | |- never_throws (gets _) => apply never_throws_gets
  | |- never_throws (modify _) => apply never_throws_modify
  | |- never_throws (addMessage _ (JStr _)) => apply never_throws_addMessage_string
  | |- never_throws (sendMessage _ _) => apply sendMessage_never_throws
  | |- never_throws (loadDocuments _) => apply loadDocuments_never_throws
  | |- never_throws (addDocument _ _ _ _ _) => apply addDocument_never_throws
  | |- never_throws (onFormSubmit _ _ _) => apply never_throws_onFormSubmit
  | |- never_throws (if ?b then _ else _) => destruct b
  | |- never_throws (match ?x with _ => _ end) => destruct x
  | |- never_throws ?m => let h := head_of m in unfold h
  end.

Lemma addDocument_unhandled (english malayalam manglish : jsstring)
      (o o_list : FetchOutcome) :
  preserves unhandled (addDocument english malayalam manglish o o_list).
Proof.
  intros w. unfold run. rewrite addDocument_spec.
  destruct (add_outcome o); cbn [snd]; [reflexivity|].
  assert (H : preserves unhandled (loadDocuments o_list)) by frame.
  now rewrite H.
Qed.

(** Frames for the list of unhandled rejections: a dropped promise adds
    nothing to it when its computation never throws. *)
Ltac settled :=
  repeat match goal with
  | |- forall _, _ => intro
  | |- preserves _ ((fun _ => _) _) => cbv beta
  | |- preserves _ (spawn _) => apply preserves_spawn_total; [solve [total]|]
  | |- preserves _ (addDocument _ _ _ _ _) => apply addDocument_unhandled
  | |- preserves _ (bind _ _) => apply preserves_bind
  | |- preserves _ (try_catch _ _) => apply preserves_try_catch
  | |- preserves _ ?m => solve [frame]
  | |- preserves _ (if ?b then _ else _) => destruct b
  | |- preserves _ (match ?x with _ => _ end) => destruct x
  | |- preserves _ ?m => let h := head_of m in unfold h
  end.

Lemma handle_unhandled (host : Host) (ev : Event) :
  preserves unhandled (handle host ev).
Proof. destruct ev; settled. Qed.

Lemma handle_never_throws (host : Host) (ev : Event) :
  ev <> VoiceClick -> never_throws (handle host ev).
Proof. destruct ev; try congruence; intros _; total. Qed.

Lemma toggleVoiceRecording_result (w : World) :
  result toggleVoiceRecording w = Normal tt \/
  (result toggleVoiceRecording w = Thrown InvalidStateError /\
   session_active w = true /\ isRecording w = false).
Proof.
  unfold session_active.
  destruct (recognition w) as [r|] eqn:Hr.
  - destruct (isRecording w) eqn:Hi.
    + left. unfold result, toggleVoiceRecording, bind, gets. now rewrite Hr, Hi.
    + destruct (started r) eqn:Hs.
      * right. unfold result, toggleVoiceRecording, bind, gets, recognition_start.
        now rewrite Hr, Hi, Hs.
      * left. unfold result. now rewrite (toggleVoiceRecording_starts w Hr Hi Hs).
  - left. unfold result, toggleVoiceRecording, bind, gets. rewrite Hr.
    now rewrite addMessage_string.
Qed.

(** X3. No failure leaves a handler unseen.  Loading the page and every
    event complete without an uncaught exception and without an unhandled
    rejection, however the requests settle and whatever the backend sends,
    with one exception: a click on the voice button while a session has
    been started but [isRecording] is not yet set, where [start()] throws
    InvalidStateError out of [toggleVoiceRecording]. *)
Theorem handlers_contain_failures (host : Host) (w : World) :
  (forall o_docs o_ping,
     result (onDOMContentLoaded host o_docs o_ping) w = Normal tt /\
     unhandled (run (onDOMContentLoaded host o_docs o_ping) w) = unhandled w) /\
  (forall ev,
     unhandled (run (handle host ev) w) = unhandled w /\
     (result (handle host ev) w = Normal tt \/
      (ev = VoiceClick /\ session_active w = true /\ isRecording w = false /\
       result (handle host ev) w = Thrown InvalidStateError))).
Proof.
  split.
  - intros o_docs o_ping. split.
    + assert (H : never_throws (onDOMContentLoaded host o_docs o_ping)) by total.
      destruct (H w) as [[] Hr]. exact Hr.
    + assert (H : preserves unhandled (onDOMContentLoaded host o_docs o_ping)) by settled.
      apply H.
  - intros ev. split; [apply handle_unhandled|].
    destruct ev;
      try (left;
           match goal with
           | |- result (handle ?h ?e) ?w0 = _ =>
               let H := fresh in
               assert (H : e <> VoiceClick) by discriminate;
               destruct (handle_never_throws h H w0) as [[] Hr]; exact Hr
           end).
    cbn [handle].
    destruct (toggleVoiceRecording_result w) as [H|(H & Hs & Hi)];
      [left; exact H | right; repeat split; assumption].
Qed.

(* ================================================================== *)
(** ** query: every way it ends *)
(* ================================================================== *)

Lemma get_prop_property (v : jsval) (k : string) (w : World) :
  get_prop v k w = (property v k, w).
Proof. destruct v; reflexivity. Qed.

Lemma query_catch_run (e : JsError) (w : World) :
  (console_error "Error sending message:" e ;;
   addMessage bot (JStr (js "Sorry, there was an error processing your request. Please try again.")) ;;
   logToSystem (js "Error: " ++ err_message e) error) w =
  (Normal tt, after_query_error e w).
Proof.
  unfold bind, console_error, modify, after_query_error. rewrite addMessage_string.
  unfold sorry_text. rewrite sorry_text_plain. reflexivity.
Qed.

(** [sendMessage] in closed form. *)
Lemma template_run (v : jsval) (w : World) :
  template v w = (if template_throws v then Thrown template_error else Normal (to_string v), w).
Proof. unfold template. destruct (template_throws v); reflexivity. Qed.

Lemma sendMessage_run (host : Host) (o : FetchOutcome) (w : World) :
  trim (inputValue w) <> [] ->
  sendMessage host o w = (Normal tt, after_query host (trim (inputValue w)) (query_end o) w).
Proof.
  intros Ht. remember (trim (inputValue w)) as text eqn:Etext.
  unfold sendMessage. unfold bind at 1, gets at 1. rewrite <- Etext.
  destruct text as [|u t]; [congruence|]. clear Ht Etext.
  unfold bind at 1. rewrite addMessage_string.
  unfold bind at 1, modify at 1.
  erewrite try_catch_bind_normal by reflexivity.
  unfold after_query, query_issued, query_request.
  cbn [currentLanguage set_inputValue set_chatMessages].
  destruct o as [e|r]; cbn [query_end].
  { erewrite try_catch_thrown; [|erewrite bind_thrown by apply fetch_rejected; reflexivity].
    rewrite query_catch_run. reflexivity. }
  erewrite try_catch_bind_normal by apply fetch_fulfilled.
  destruct (ok r); cbn [negb];
    [|erewrite try_catch_thrown; [|reflexivity]; rewrite query_catch_run; reflexivity].
  unfold response_json, await.
  destruct (json_body r) as [data|e];
    [|erewrite try_catch_thrown; [|reflexivity]; rewrite query_catch_run; reflexivity].
  erewrite try_catch_bind_normal by reflexivity.
  destruct (property data "answer") as [v|e] eqn:Ea.
  2:{ erewrite try_catch_thrown;
        [|erewrite bind_thrown by (rewrite get_prop_property, Ea; reflexivity); reflexivity].
      rewrite query_catch_run. reflexivity. }
  erewrite try_catch_bind_normal by (rewrite get_prop_property, Ea; reflexivity).
  assert (Hu : property data "audio_url" = Normal (value_of (property data "audio_url")))
    by (destruct data; try discriminate; reflexivity).
  assert (Hl : property data "language" = Normal (value_of (property data "language")))
    by (destruct data; try discriminate; reflexivity).
  destruct (template_throws v) eqn:Hthrow.
  { erewrite try_catch_thrown;
      [|erewrite bind_thrown by (apply addMessage_template_throws; exact Hthrow); reflexivity].
    rewrite query_catch_run. reflexivity. }
  destruct (is_string v) eqn:Hv.
  - destruct v as [| | | |a| |]; try discriminate. clear Hv Hthrow.
    erewrite try_catch_bind_normal by apply addMessage_string.
    erewrite try_catch_bind_normal by (rewrite get_prop_property, Hu; reflexivity).
    cbn [to_string].
    destruct (truthy (value_of (property data "audio_url"))); cbn [andb].
    + destruct (template_throws (value_of (property data "audio_url"))) eqn:Hsrc.
      * erewrite try_catch_thrown;
          [|erewrite bind_thrown;
             [|erewrite bind_thrown by (rewrite template_run, Hsrc; reflexivity); reflexivity];
            reflexivity].
        rewrite query_catch_run. reflexivity.
      * erewrite try_catch_normal; [reflexivity|].
        erewrite bind_normal;
          [|erewrite bind_normal by (rewrite template_run, Hsrc; reflexivity); reflexivity].
        erewrite bind_normal by reflexivity. reflexivity.
    + destruct (has_speechSynthesis host) eqn:Hs;
        (erewrite try_catch_normal; [reflexivity|]);
        (erewrite bind_normal;
           [|erewrite bind_normal by (rewrite get_prop_property, Hl; reflexivity);
             unfold speakText, locale_of; rewrite Hs; reflexivity]);
        erewrite bind_normal by reflexivity; reflexivity.
  - erewrite try_catch_thrown;
      [|erewrite bind_thrown by (apply addMessage_not_string; [exact Hthrow | exact Hv]);
        reflexivity].
    rewrite query_catch_run.
    destruct v; try discriminate; reflexivity.
Qed.




(** X5. Every query is answered once it is sent: with an input that is not
    blank, however the request settles and whatever the body holds,
    [sendMessage] completes normally, issues exactly one request (the
    trimmed text, and as language null under 'auto' and the current
    language otherwise), clears the input, appends the user's message
    followed by one or two bot messages and nothing else, and writes exactly
    one log entry. *)
Theorem sendMessage_always_replies (host : Host) (o : FetchOutcome) (w : World) :
  trim (inputValue w) <> [] ->
  let text := trim (inputValue w) in
  let w' := run (sendMessage host o) w in
  result (sendMessage host o) w = Normal tt /\
  requests w' =
    requests w ++
      [mkRequest POST (API_BASE_URL ++ js "/api/query")
         (JsonBody (JObj [(js "text", JStr text);
                          (js "language", if is_str (currentLanguage w) (js "auto")
                                          then JNull else currentLanguage w)]))] /\
  inputValue w' = [] /\
  (exists replies,
     chatMessages w' =
       chatMessages w ++ mkMessage user (js "You") text (matches_malayalam text) :: replies /\
     forallb is_bot replies = true /\
     (1 <= List.length replies <= 2)%nat) /\
  (exists entry, logsContainer w' = logsContainer w ++ [entry]).
Proof.
  intros Ht text w'. subst text w'.
  unfold result, run. rewrite (sendMessage_run host o w Ht). cbn [fst snd].
  split; [reflexivity|].
  destruct (query_end o) as [e|data v|data a]; cbn [after_query].
  - unfold after_query_error, query_issued, query_request. cbn.
    repeat split; try (eexists; rewrite <- app_assoc; repeat split; cbn; lia).
    eexists. reflexivity.
  - unfold after_query_error, query_issued, query_request. cbn.
    repeat split; try (eexists; rewrite <- !app_assoc; repeat split; cbn; lia).
    eexists. reflexivity.
  - unfold query_issued, query_request.
    destruct (truthy (value_of (property data "audio_url")));
      [destruct (template_throws (value_of (property data "audio_url")))
      |destruct (has_speechSynthesis host)]; unfold after_query_error; cbn;
      (repeat split; try (eexists; rewrite <- !app_assoc; repeat split; cbn; lia));
      eexists; reflexivity.
Qed.

Lemma sendMessage_always_replies_witness :
  let w := set_currentLanguage (JStr (js "manglish")) (set_inputValue (js "hostel evide?") fresh_world) in
  requests (run (sendMessage blank_host (Fulfilled (mkResponse 200 (Normal JNull)))) w) =
    [mkRequest POST (API_BASE_URL ++ js "/api/query")
       (JsonBody (JObj [(js "text", JStr (trim (inputValue w)));
                        (js "language", if is_str (currentLanguage w) (js "auto")
                                        then JNull else currentLanguage w)]))].
Proof.
  intros w.
  apply (@sendMessage_always_replies blank_host (Fulfilled (mkResponse 200 (Normal JNull))) w).
  vm_compute. discriminate.
Defined.

(** X6. A 2xx reply whose answer is not a string (missing, null, a number,
    an array, an object) is shown before it is found out: [addMessage]
    appends the value as the template renders it ("undefined" for a missing
    answer), unmarked, then [text.match] throws; the apology follows as a
    second bot message, one error entry is logged, and nothing is played or
    spoken.  When the template itself throws on the answer, nothing of it
    is shown: the apology is the only bot message. *)
Theorem sendMessage_answer_not_string (host : Host) (r : Response) (data v : jsval)
        (w : World) :
  trim (inputValue w) <> [] ->
  ok r = true -> json_body r = Normal data ->
  property data "answer" = Normal v -> is_string v = false ->
  let text := trim (inputValue w) in
  let w' := run (sendMessage host (Fulfilled r)) w in
  result (sendMessage host (Fulfilled r)) w = Normal tt /\
  (exists entry, logsContainer w' = logsContainer w ++ [entry] /\ log_type entry = error) /\
  played w' = played w /\ spoken w' = spoken w /\
  (template_throws v = false ->
     (exists shown,
        chatMessages w' =
          chatMessages w ++ [mkMessage user (js "You") text (matches_malayalam text);
                             mkMessage bot (js "Assistant") shown false;
                             mkMessage bot (js "Assistant") sorry_text false] /\
        (exact_value v = true -> shown = to_string v))) /\
  (template_throws v = true ->
     chatMessages w' =
       chatMessages w ++ [mkMessage user (js "You") text (matches_malayalam text);
                          mkMessage bot (js "Assistant") sorry_text false]).
Proof.
  intros Ht Hok Hb Ha Hv text w'. subst text w'.
  unfold result, run. rewrite (sendMessage_run host (Fulfilled r) w Ht).
  cbn [fst snd query_end]. rewrite Hok, Hb, Ha.
  destruct (template_throws v) eqn:Hth.
  - cbn [after_query]. unfold after_query_error, query_issued. cbn.
    split; [reflexivity|]. split; [eexists; split; reflexivity|].
    split; [reflexivity|]. split; [reflexivity|]. split; [discriminate|].
    intros _. now rewrite <- app_assoc.
  - destruct v; try discriminate;
      cbn [after_query]; unfold after_query_error, query_issued; cbn;
      (split; [reflexivity|]); (split; [eexists; split; reflexivity|]);
      (split; [reflexivity|]); (split; [reflexivity|]); (split; [|discriminate]);
      intros _; eexists; rewrite <- !app_assoc; split; reflexivity.
Qed.

Lemma sendMessage_answer_not_string_witness :
  let w := set_inputValue (js "hello") fresh_world in
  let o := Fulfilled (mkResponse 200 (Normal (JObj [(js "detail", JStr (js "quota exceeded"))]))) in
  map msg_text (chatMessages (run (sendMessage blank_host o) w))
    = [trim (inputValue w); to_string JUndefined; sorry_text].
Proof.
  intros w o.
  destruct (@sendMessage_answer_not_string blank_host
              (mkResponse 200 (Normal (JObj [(js "detail", JStr (js "quota exceeded"))])))
              (JObj [(js "detail", JStr (js "quota exceeded"))]) JUndefined w)
    as (_ & _ & _ & _ & Hshown & _);
    [vm_compute; discriminate | reflexivity | reflexivity | reflexivity | reflexivity |].
  destruct Hshown as (shown & Hc & Hs); [reflexivity|].
  subst o. rewrite Hc, Hs; reflexivity.
Defined.

(** X7. The language chosen reaches the backend: after a click on a
    language button, the next query carries that language in its body, and
    null when the button is the 'auto' one. *)
Theorem language_choice_reaches_query (host : Host) (data_lang : jsval)
        (textContent : jsstring) (o : FetchOutcome) (w : World) :
  trim (inputValue w) <> [] ->
  let w1 := run (onLangClick data_lang textContent) w in
  requests (run (sendMessage host o) w1) =
    requests w ++
      [mkRequest POST (API_BASE_URL ++ js "/api/query")
         (JsonBody (JObj [(js "text", JStr (trim (inputValue w)));
                          (js "language", if is_str data_lang (js "auto")
                                          then JNull else data_lang)]))].
Proof.
  intros Ht w1.
  assert (Hi : inputValue w1 = inputValue w)
    by (assert (H : preserves inputValue (onLangClick data_lang textContent)) by frame;
        apply H).
  assert (Hq : requests w1 = requests w)
    by (assert (H : preserves requests (onLangClick data_lang textContent)) by frame;
        apply H).
  assert (Hc : currentLanguage w1 = data_lang)
    by apply (onLangClick_recognition data_lang textContent w).
  assert (Ht1 : trim (inputValue w1) <> []) by now rewrite Hi.
  unfold run at 1. rewrite (sendMessage_run host o w1 Ht1). cbn [snd].
  assert (Hr : forall q, requests (after_query host (trim (inputValue w1)) q w1)
                         = requests w1 ++ [query_request (trim (inputValue w1)) (currentLanguage w1)]).
  { intros q. destruct q as [e|data v|data a]; cbn [after_query];
      unfold after_query_error, query_issued; try reflexivity.
    destruct (truthy (value_of (property data "audio_url")));
      [destruct (template_throws (value_of (property data "audio_url")))
      |destruct (has_speechSynthesis host)]; reflexivity. }
  rewrite Hr, Hi, Hq, Hc. reflexivity.
Qed.

Lemma language_choice_reaches_query_witness :
  let w := set_inputValue (js "fees ethra?") fresh_world in
  requests (run (sendMessage blank_host network_down)
                (run (onLangClick (JStr (js "manglish")) (js "Manglish")) w)) =
    requests w ++
      [mkRequest POST (API_BASE_URL ++ js "/api/query")
         (JsonBody (JObj [(js "text", JStr (trim (inputValue w)));
                          (js "language", if is_str (JStr (js "manglish")) (js "auto")
                                          then JNull else JStr (js "manglish"))]))].
Proof.
  intros w.
  apply (@language_choice_reaches_query blank_host (JStr (js "manglish")) (js "Manglish")
           network_down w).
  vm_compute. discriminate.
Defined.

(* ================================================================== *)
(** ** listDocuments: what is rendered *)
(* ================================================================== *)

Lemma forEach_document_run (docs : list jsval) (index : nat) (w : World) :
  forEach_document docs index w =
  (match render_failure docs with
   | None => Normal tt
   | Some e => Thrown e
   end,
   set_documentsList (documentsList w ++ rendered docs index) w).
Proof.
  revert index w. induction docs as [|doc rest IH]; intros index w.
  - cbn. rewrite app_nil_r. destruct w; reflexivity.
  - cbn [forEach_document rendered render_failure].
    unfold bind at 1. rewrite get_prop_property.
    destruct (property doc "text") as [v|e];
      [|cbn; rewrite app_nil_r; destruct w; reflexivity].
    destruct v; try (cbn; rewrite app_nil_r; destruct w; reflexivity).
    unfold bind at 1, string_receiver, ret. unfold bind at 1, modify at 1.
    rewrite IH. cbn [documentsList set_documentsList]. rewrite <- app_assoc.
    reflexivity.
Qed.

Lemma rendered_complete (docs : list jsval) (index : nat) :
  render_failure docs = None ->
  map doc_number (rendered docs index) = seq (index + 1) (List.length docs).
Proof.
  revert index. induction docs as [|doc rest IH]; intros index; [reflexivity|].
  cbn [render_failure rendered].
  destruct (property doc "text") as [v|e]; [|discriminate].
  destruct v; try discriminate. intros H.
  cbn [map List.length seq doc_number render_document]. f_equal.
  now rewrite (IH (S index) H).
Qed.

Lemma rendered_partial (docs : list jsval) (index : nat) (e : JsError) :
  render_failure docs = Some e ->
  (List.length (rendered docs index) < List.length docs)%nat.
Proof.
  revert index. induction docs as [|doc rest IH]; intros index; [discriminate|].
  cbn [render_failure rendered].
  destruct (property doc "text") as [v|e0]; [|cbn; lia].
  destruct v; try (cbn; lia). intros H.
  cbn [List.length]. specialize (IH (S index) H). lia.
Qed.

(** [loadDocuments] in closed form, for a body that holds an array of
    documents. *)
Lemma loadDocuments_array (r : Response) (data : jsval) (docs : list jsval) (w : World) :
  json_body r = Normal data -> documents_array data = Some docs ->
  loadDocuments (Fulfilled r) w =
  (Normal tt,
   let w3 := set_documentsList (rendered docs 0)
               (set_requests (requests w ++ [documents_request]) w) in
   match render_failure docs with
   | None => set_logsContainer (logsContainer w ++ [mkLog info (loaded_log (List.length docs))]) w3
   | Some e =>
     set_logsContainer
       (logsContainer w ++ [mkLog error (js "Error loading documents: " ++ err_message e)])
       (set_console (console w ++ [ConsoleError (js "Error loading documents:") (err_message e)])
          w3)
   end).
Proof.
  intros E Hd. unfold loadDocuments.
  erewrite try_catch_bind_normal by apply fetch_fulfilled.
  erewrite try_catch_bind_normal by (unfold response_json, await; now rewrite E).
  erewrite try_catch_bind_normal by reflexivity.
  assert (Hp : property data "documents" = Normal (JArr docs)).
  { destruct data; try discriminate. cbn in *.
    destruct (own_property props (js "documents")); try discriminate. now inversion Hd. }
  erewrite try_catch_bind_normal by (rewrite get_prop_property, Hp; reflexivity).
  erewrite try_catch_bind_normal by reflexivity.
  cbv zeta. destruct (render_failure docs) as [e|] eqn:Hf.
  - erewrite try_catch_thrown;
      [|erewrite bind_thrown by (rewrite forEach_document_run, Hf; reflexivity); reflexivity].
    reflexivity.
  - erewrite try_catch_normal; [reflexivity|].
    erewrite bind_normal by (rewrite forEach_document_run, Hf; reflexivity).
    reflexivity.
Qed.

(** X8. A list that can be rendered replaces the one on screen: when the
    body holds an array of documents whose [text] are all strings,
    whatever the status of the response, the container holds afterwards
    exactly one entry per document, in the order sent and numbered from 1,
    whatever it held before, and one info entry with their count is
    logged. *)
Theorem loadDocuments_renders_list (r : Response) (data : jsval) (docs : list jsval)
        (w : World) :
  json_body r = Normal data -> documents_array data = Some docs ->
  render_failure docs = None ->
  let w' := run (loadDocuments (Fulfilled r)) w in
  documentsList w' = rendered docs 0 /\
  map doc_number (documentsList w') = seq 1 (List.length docs) /\
  logsContainer w' = logsContainer w ++ [mkLog info (loaded_log (List.length docs))] /\
  chatMessages w' = chatMessages w.
Proof.
  intros E Hd Hf w'. subst w'. unfold run.
  rewrite (loadDocuments_array r w E Hd). cbv zeta. rewrite Hf. cbn.
  repeat split. apply (rendered_complete docs 0 Hf).
Qed.

Lemma loadDocuments_renders_list_witness :
  let docs := [JObj [(js "text", JStr (js "Library hours | 9am"))];
               JObj [(js "text", JStr (js "Fees"))]] in
  let r := mkResponse 500 (Normal (JObj [(js "documents", JArr docs)])) in
  map doc_number (documentsList (run (loadDocuments (Fulfilled r)) page_with_document))
    = seq 1 (List.length docs).
Proof.
  intros docs r.
  apply (@loadDocuments_renders_list r (JObj [(js "documents", JArr docs)]) docs
           page_with_document); reflexivity.
Defined.

(** X9. A list that breaks is rendered up to the break: when some document
    is null or has a [text] that is not a string, the container holds the
    entries of the documents before the first such one and no more, which
    are fewer than the documents sent; no count is logged, but one error
    entry with the text of the exception. *)
Theorem loadDocuments_stops_at_bad_document (r : Response) (data : jsval)
        (docs : list jsval) (e : JsError) (w : World) :
  json_body r = Normal data -> documents_array data = Some docs ->
  render_failure docs = Some e ->
  let w' := run (loadDocuments (Fulfilled r)) w in
  result (loadDocuments (Fulfilled r)) w = Normal tt /\
  documentsList w' = rendered docs 0 /\
  (List.length (documentsList w') < List.length docs)%nat /\
  logsContainer w' =
    logsContainer w ++ [mkLog error (js "Error loading documents: " ++ err_message e)].
Proof.
  intros E Hd Hf w'. subst w'. unfold result, run.
  rewrite (loadDocuments_array r w E Hd). cbv zeta. rewrite Hf. cbn.
  repeat split. apply (rendered_partial docs 0 Hf).
Qed.

Lemma loadDocuments_stops_at_bad_document_witness :
  let docs := [JObj [(js "text", JStr (js "Library hours | 9am"))]; JNull;
               JObj [(js "text", JStr (js "Fees"))]] in
  let r := mkResponse 200 (Normal (JObj [(js "documents", JArr docs)])) in
  documentsList (run (loadDocuments (Fulfilled r)) fresh_world) = rendered docs 0.
Proof.
  intros docs r.
  apply (@loadDocuments_stops_at_bad_document r (JObj [(js "documents", JArr docs)]) docs
           (TypeError "Cannot read properties of undefined or null") fresh_world);
    reflexivity.
Defined.

Lemma loadDocuments_logs_once (o : FetchOutcome) (w : World) :
  exists entry, logsContainer (run (loadDocuments o) w) = logsContainer w ++ [entry].
Proof.
  destruct (transport_failure o) as [e|] eqn:Ht.
  - unfold run. rewrite (loadDocuments_transport_failure o w Ht). eexists. reflexivity.
  - destruct o as [e|r]; [discriminate|]. cbn in Ht.
    destruct (json_body r) as [data|e] eqn:E; [|discriminate].
    destruct (documents_array data) as [docs|] eqn:Hd.
    + unfold run. rewrite (loadDocuments_array r w E Hd). cbv zeta.
      destruct (render_failure docs); eexists; reflexivity.
    + destruct (loadDocuments_no_array r w E Hd) as [exn H].
      unfold run. rewrite H. eexists. reflexivity.
Qed.

(** X10. Every call of [loadDocuments] completes normally, issues exactly
    one GET of the documents and writes exactly one log entry, however the
    request settles and whatever the body holds; it shows nothing in the
    conversation. *)
Theorem loadDocuments_one_request_one_entry (o : FetchOutcome) (w : World) :
  let w' := run (loadDocuments o) w in
  result (loadDocuments o) w = Normal tt /\
  requests w' = requests w ++ [documents_request] /\
  (exists entry, logsContainer w' = logsContainer w ++ [entry]) /\
  chatMessages w' = chatMessages w.
Proof.
  cbv zeta. split; [|split; [apply loadDocuments_requests|split; [|apply loadDocuments_chat]]].
  - destruct (loadDocuments_never_throws o w) as [[] H]. exact H.
  - apply loadDocuments_logs_once.
Qed.


Lemma split_no_pipe (s : jsstring) : no_pipe s = true -> split 124 s = [s].
Proof.
  induction s as [|u r IH]; [reflexivity|].
  cbn [no_pipe forallb split]. intros H. apply andb_true_iff in H as [Hu Hr].
  apply negb_true_iff in Hu. rewrite Hu. fold (no_pipe r) in Hr. now rewrite (IH Hr).
Qed.

Lemma split_at_pipe (a b : jsstring) :
  no_pipe a = true -> split 124 (a ++ 124 :: b) = a :: split 124 b.
Proof.
  induction a as [|u r IH]; [reflexivity|].
  cbn [no_pipe forallb split app]. intros H. apply andb_true_iff in H as [Hu Hr].
  apply negb_true_iff in Hu. rewrite Hu. fold (no_pipe r) in Hr. now rewrite (IH Hr).
Qed.

(** X11. The pipe-delimited text of a document is shown field by field: a
    text [english|malayalam|manglish] whose fields hold no pipe is rendered
    as the trimmed English text with an ML row and a Manglish row, each
    left out when its field is blank; a text without a pipe gives the EN
    row alone. *)
Theorem document_rendered_by_fields (english malayalam manglish : jsstring)
        (index : nat) (w : World) :
  no_pipe english = true -> no_pipe malayalam = true -> no_pipe manglish = true ->
  documentsList
    (run (forEach_document
            [JObj [(js "text", JStr (english ++ 124 :: malayalam ++ 124 :: manglish))]] index) w)
    = documentsList w ++ [mkDoc (index + 1) (trim english) (nonblank (trim malayalam))
                                (nonblank (trim manglish))] /\
  documentsList (run (forEach_document [JObj [(js "text", JStr english)]] index) w)
    = documentsList w ++ [mkDoc (index + 1) (trim english) None None].
Proof.
  intros He Hm Hg. unfold run. rewrite !forEach_document_run.
  cbn [snd documentsList set_documentsList rendered property own_property].
  rewrite jseqb_refl. unfold render_document.
  rewrite (@split_at_pipe english _ He), (@split_at_pipe malayalam _ Hm),
    (@split_no_pipe manglish Hg), (@split_no_pipe english He).
  cbn [map].
  unfold part, nonblank. cbn [nth_error].
  split; destruct (trim english); destruct (trim malayalam); destruct (trim manglish);
    reflexivity.
Qed.

Lemma document_rendered_by_fields_witness :
  documentsList
    (run (forEach_document
            [JObj [(js "text", JStr (js "Library hours " ++ 124 :: js "  " ++ 124 :: js " library samayam"))]]
            0) fresh_world)
    = documentsList fresh_world ++
        [mkDoc (0 + 1) (trim (js "Library hours ")) (nonblank (trim (js "  ")))
               (nonblank (trim (js " library samayam")))].
Proof.
  apply (@document_rendered_by_fields (js "Library hours ") (js "  ") (js " library samayam")
           0 fresh_world); reflexivity.
Defined.

(* ================================================================== *)
(** ** addDocument: when it succeeds *)
(* ================================================================== *)

(** X12. [addDocument] returns true exactly when the status of the
    response is 2xx, its body is JSON other than null and the [id] it holds
    can be inserted into the success message (the template does not throw
    on it), and false otherwise; it does not ask for an [id], and the
    success message shows the one received, "undefined" when there is
    none. *)
Theorem addDocument_true_iff (english malayalam manglish : jsstring)
        (o o_list : FetchOutcome) (w : World) :
  (result (addDocument english malayalam manglish o o_list) w = Normal true <->
   exists r data, o = Fulfilled r /\ ok r = true /\ json_body r = Normal data /\
                  data <> JNull /\ data <> JUndefined /\
                  template_throws (value_of (property data "id")) = false) /\
  (result (addDocument english malayalam manglish o o_list) w <> Normal true ->
   result (addDocument english malayalam manglish o o_list) w = Normal false) /\
  (forall r data, o = Fulfilled r -> ok r = true -> json_body r = Normal data ->
     data <> JNull -> data <> JUndefined ->
     template_throws (value_of (property data "id")) = false ->
     exists m shown,
       In m (chatMessages (run (addDocument english malayalam manglish o o_list) w)) /\
       msg_sender m = system /\
       msg_text m = js "✅ Document added successfully! ID: " ++ shown /\
       (exact_value (value_of (property data "id")) = true ->
        shown = to_string (value_of (property data "id")))).
Proof.
  unfold result, run. rewrite addDocument_spec. split; [|split].
  - split.
    + destruct o as [e|r]; cbn [add_outcome]; [discriminate|].
      destruct (ok r) eqn:Hok; [|discriminate].
      destruct (json_body r) as [data|e] eqn:E; [|discriminate].
      destruct data as [| |b|n|s0|xs|props]; try discriminate;
        try (intros _; eexists; eexists; repeat split;
             first [eassumption | discriminate | reflexivity]).
      destruct (template_throws (own_property props (js "id"))) eqn:Hth; [discriminate|].
      intros _. eexists; eexists; repeat split;
        first [eassumption | discriminate].
    + intros (r & data & -> & Hok & E & Hn & Hu & Hth). cbn [add_outcome]. rewrite Hok, E.
      destruct data; try congruence; try reflexivity.
      cbn [property value_of] in Hth. now rewrite Hth.
  - destruct (add_outcome o); cbn [fst]; [reflexivity | congruence].
  - intros r data -> Hok E Hn Hu Hth. cbn [add_outcome]. rewrite Hok, E.
    destruct data as [| |b|n|s0|xs|props]; try congruence;
      cbn [property value_of] in *; try rewrite Hth; cbn [snd];
      (eexists; eexists; split;
       [rewrite loadDocuments_chat; cbn [chatMessages set_logsContainer set_chatMessages];
        apply in_or_app; right; left; reflexivity
       | split; [reflexivity | split; [reflexivity | intros _; reflexivity]]]).
Qed.

Lemma addDocument_true_iff_witness :
  result (addDocument (js "Fees") (js "ഫീസ്") [] (Fulfilled (mkResponse 201 (Normal (JObj []))))
            network_down) fresh_world = Normal true.
Proof.
  apply (proj1 (@addDocument_true_iff (js "Fees") (js "ഫീസ്") []
                  (Fulfilled (mkResponse 201 (Normal (JObj [])))) network_down fresh_world)).
  exists (mkResponse 201 (Normal (JObj []))), (JObj []).
  repeat split; discriminate.
Defined.

(** X13. An [addDocument] that fails asks for nothing more: it issues its
    POST and no GET of the documents, and the list on screen stays as it
    was. *)
Theorem addDocument_failure_keeps_list (english malayalam manglish : jsstring)
        (o o_list : FetchOutcome) (w : World) :
  result (addDocument english malayalam manglish o o_list) w = Normal false ->
  let w' := run (addDocument english malayalam manglish o o_list) w in
  requests w' = requests w ++ [add_request english malayalam manglish] /\
  listDocuments_calls (requests w') = listDocuments_calls (requests w) /\
  documentsList w' = documentsList w.
Proof.
  cbv zeta. unfold result, run. rewrite addDocument_spec.
  destruct (add_outcome o) as [e|id]; cbn [fst snd]; [intros _ | discriminate].
  cbn [requests documentsList set_logsContainer set_chatMessages set_console set_requests].
  split; [reflexivity|]. split; [|reflexivity].
  rewrite listDocuments_calls_app.
  replace (listDocuments_calls [add_request english malayalam manglish]) with 0%nat
    by (vm_compute; reflexivity).
  lia.
Qed.

Lemma addDocument_failure_keeps_list_witness :
  let o := Fulfilled (mkResponse 422 (Normal (JObj [(js "id", JNum 3)]))) in
  documentsList (run (addDocument (js "Fees") (js "ഫീസ്") [] o one_document) page_with_document)
    = documentsList page_with_document.
Proof.
  intros o.
  apply (@addDocument_failure_keeps_list (js "Fees") (js "ഫീസ്") [] o one_document
           page_with_document).
  reflexivity.
Defined.

(** X14. A valid submission posts the fields as trimmed: the values of the
    three fields without the white space around them, in one POST; the only
    request that can follow is the one GET of the reload. *)
Theorem onFormSubmit_posts_trimmed_fields (host : Host) (o o_list : FetchOutcome) (w : World) :
  trim (englishText (form w)) <> [] -> trim (malayalamText (form w)) <> [] ->
  exists reload,
    requests (run (onFormSubmit host o o_list) w) =
      requests w ++
        mkRequest POST (API_BASE_URL ++ js "/api/add-document")
          (JsonBody (JObj [(js "english", JStr (trim (englishText (form w))));
                           (js "malayalam", JStr (trim (malayalamText (form w))));
                           (js "manglish", JStr (trim (manglishText (form w))))]))
        :: reload /\
    (reload = [] \/ reload = [documents_request]).
Proof.
  intros He Hm. unfold run at 1. rewrite (onFormSubmit_valid host o o_list w He Hm).
  cbv zeta. unfold run. rewrite addDocument_spec.
  destruct (add_outcome o); cbn [snd requests set_form].
  - exists []. split; [reflexivity | now left].
  - exists [documents_request]. split; [|now right].
    fold (run (loadDocuments o_list)). rewrite loadDocuments_requests.
    cbn [requests set_logsContainer set_chatMessages set_requests].
    rewrite <- app_assoc. reflexivity.
Qed.

Lemma onFormSubmit_posts_trimmed_fields_witness :
  let w := set_form (mkForm (js "  Fees ") (js " ഫീസ് ") (js " ")) fresh_world in
  exists reload,
    requests (run (onFormSubmit blank_host network_down network_down) w) =
      requests w ++
        mkRequest POST (API_BASE_URL ++ js "/api/add-document")
          (JsonBody (JObj [(js "english", JStr (trim (englishText (form w))));
                           (js "malayalam", JStr (trim (malayalamText (form w))));
                           (js "manglish", JStr (trim (manglishText (form w))))]))
        :: reload /\
    (reload = [] \/ reload = [documents_request]).
Proof.
  intros w.
  apply (@onFormSubmit_posts_trimmed_fields blank_host network_down network_down w);
    vm_compute; discriminate.
Defined.

(* ================================================================== *)
(** ** Loading the page *)
(* ================================================================== *)

Lemma ping_run (o_ping : FetchOutcome) (w : World) :
  exists entry,
    ping o_ping w =
    (Normal tt,
     set_logsContainer (logsContainer w ++ [entry])
       (set_requests (requests w ++ [ping_request]) w)).
Proof.
  unfold ping, ping_request.
  destruct o_ping as [e|r].
  { eexists. erewrite try_catch_thrown;
      [|erewrite bind_thrown by apply fetch_rejected; reflexivity]. reflexivity. }
  erewrite try_catch_bind_normal by apply fetch_fulfilled.
  unfold response_json, await.
  destruct (json_body r) as [data|e];
    [|eexists; erewrite try_catch_thrown; [|reflexivity]; reflexivity].
  erewrite try_catch_bind_normal by reflexivity.
  destruct (property data "message") as [m|e] eqn:Em.
  - erewrite try_catch_bind_normal by (rewrite get_prop_property, Em; reflexivity).
    destruct (template_throws m) eqn:Hth.
    + eexists. erewrite try_catch_thrown;
        [|erewrite bind_thrown by (rewrite template_run, Hth; reflexivity); reflexivity].
      reflexivity.
    + eexists. erewrite try_catch_normal; [reflexivity|].
      erewrite bind_normal by (rewrite template_run, Hth; reflexivity). reflexivity.
  - eexists. erewrite try_catch_thrown;
      [|erewrite bind_thrown by (rewrite get_prop_property, Em; reflexivity); reflexivity].
    reflexivity.
Qed.

Lemma ping_never_throws (o_ping : FetchOutcome) : never_throws (ping o_ping).
Proof. intros w. destruct (ping_run o_ping w) as [entry H]. exists tt. unfold result. now rewrite H. Qed.

Lemma initSpeechRecognition_run (host : Host) (w : World) :
  initSpeechRecognition host w =
  (Normal tt,
   if has_webkitSpeechRecognition host then
     set_recognition (Some (mkRecognition (locale_of (currentLanguage w)) false)) w
   else
     set_voiceBtn_disabled true
       (set_console (console w ++ [ConsoleWarn (js "Speech recognition not supported")]) w)).
Proof.
  unfold initSpeechRecognition. destruct (has_webkitSpeechRecognition host).
  - erewrite bind_normal by reflexivity. rewrite updateRecognitionLanguage_spec. reflexivity.
  - reflexivity.
Qed.

Lemma onDOMContentLoaded_run (host : Host) (o_docs o_ping : FetchOutcome) (w : World) :
  onDOMContentLoaded host o_docs o_ping w =
  (Normal tt,
   run (ping o_ping) (run (loadDocuments o_docs) (run (initSpeechRecognition host) w))).
Proof.
  unfold onDOMContentLoaded. fold (ping o_ping).
  erewrite bind_normal by (rewrite initSpeechRecognition_run; reflexivity).
  erewrite bind_normal by apply (spawn_of_never_throws _ (loadDocuments_never_throws o_docs)).
  rewrite (spawn_of_never_throws _ (ping_never_throws o_ping)).
  unfold run. rewrite initSpeechRecognition_run. reflexivity.
Qed.

Lemma onDOMContentLoaded_recognition (host : Host) (o_docs o_ping : FetchOutcome)
      (w : World) :
  let w' := run (onDOMContentLoaded host o_docs o_ping) w in
  (has_webkitSpeechRecognition host = true ->
     recognition w' = Some (mkRecognition (locale_of (currentLanguage w)) false) /\
     voiceBtn_disabled w' = voiceBtn_disabled w) /\
  (has_webkitSpeechRecognition host = false ->
     recognition w' = recognition w /\ voiceBtn_disabled w' = true).
Proof.
  cbv zeta. unfold run at 1 2 3 4. rewrite onDOMContentLoaded_run. cbn [snd].
  assert (Hr1 : preserves recognition (ping o_ping)) by frame.
  assert (Hd1 : preserves voiceBtn_disabled (ping o_ping)) by frame.
  assert (Hr2 : preserves recognition (loadDocuments o_docs)) by frame.
  assert (Hd2 : preserves voiceBtn_disabled (loadDocuments o_docs)) by frame.
  rewrite !Hr1, !Hd1, !Hr2, !Hd2. unfold run. rewrite initSpeechRecognition_run. cbn [snd].
  split; intros ->; split; reflexivity.
Qed.

(** X15. Loading the page issues exactly two requests, the list of the
    documents and then the liveness probe, and writes exactly one log entry
    for each, however they settle; it shows nothing in the conversation.
    Where the browser has speech recognition, the recognition object is
    created idle under the locale of the current language; where it has
    not, there is no recognition object and the voice button is disabled. *)
Theorem page_load (host : Host) (o_docs o_ping : FetchOutcome) (w : World) :
  let w' := run (onDOMContentLoaded host o_docs o_ping) w in
  requests w' = requests w ++ [documents_request; ping_request] /\
  (exists e1 e2, logsContainer w' = logsContainer w ++ [e1; e2]) /\
  chatMessages w' = chatMessages w /\
  (has_webkitSpeechRecognition host = true ->
     recognition w' = Some (mkRecognition (locale_of (currentLanguage w)) false) /\
     voiceBtn_disabled w' = voiceBtn_disabled w) /\
  (has_webkitSpeechRecognition host = false ->
     recognition w' = recognition w /\ voiceBtn_disabled w' = true).
Proof.
  cbv zeta.
  split; [|split; [|split; [|apply onDOMContentLoaded_recognition]]];
    unfold run at 1; rewrite onDOMContentLoaded_run; cbn [snd];
    set (w1 := run (initSpeechRecognition host) w);
    set (w2 := run (loadDocuments o_docs) w1);
    destruct (ping_run o_ping w2) as [e2 Hp];
    destruct (loadDocuments_logs_once o_docs w1) as [e1 Hl];
    pose proof (loadDocuments_requests o_docs w1) as Hq;
    pose proof (loadDocuments_chat o_docs w1) as Hc;
    fold w2 in Hq, Hl, Hc;
    unfold run at 1; rewrite Hp;
    cbn [snd requests logsContainer chatMessages set_logsContainer set_requests];
    rewrite ?Hq, ?Hl, ?Hc; subst w1; unfold run; rewrite initSpeechRecognition_run;
    cbn [snd]; destruct (has_webkitSpeechRecognition host); cbn;
    rewrite <- ?app_assoc; try reflexivity; eexists; eexists; reflexivity.
Qed.

Lemma page_load_witness :
  let w' := run (onDOMContentLoaded silent_host network_down one_document) fresh_world in
  (recognition w' = recognition fresh_world /\ voiceBtn_disabled w' = true) /\
  recognition (run (onDOMContentLoaded blank_host network_down one_document) fresh_world)
    = Some (mkRecognition (locale_of (currentLanguage fresh_world)) false).
Proof.
  intros w'. split.
  - destruct (page_load silent_host network_down one_document fresh_world)
      as (_ & _ & _ & _ & Hno).
    apply Hno. reflexivity.
  - destruct (page_load blank_host network_down one_document fresh_world)
      as (_ & _ & _ & Hyes & _).
    apply Hyes. reflexivity.
Defined.

(* ================================================================== *)
(** ** The admin panel: tabs *)
(* ================================================================== *)

(** X16. Only the 'view-docs' tab loads the documents: a click on any other
    tab changes the active tab and nothing else, a click on 'view-docs'
    issues one GET of the documents, and the documentation link of the
    footer opens the panel on that tab with that one request. *)
Theorem tabs_load_documents_on_view_docs (tabId : jsval) (o : FetchOutcome) (w : World) :
  (tabId <> JStr (js "view-docs") ->
     onTabClick tabId o w = (Normal tt, set_activeTab tabId w)) /\
  (tabId = JStr (js "view-docs") ->
     requests (run (onTabClick tabId o) w) = requests w ++ [documents_request] /\
     activeTab (run (onTabClick tabId o) w) = tabId) /\
  (modalOpen (run (onDocsClick o) w) = true /\
   activeTab (run (onDocsClick o) w) = JStr (js "view-docs") /\
   requests (run (onDocsClick o) w) = requests w ++ [documents_request]).
Proof.
  assert (Hview : forall w0,
    onTabClick (JStr (js "view-docs")) o w0 =
    (Normal tt, run (loadDocuments o) (set_activeTab (JStr (js "view-docs")) w0))).
  { intros w0. unfold onTabClick. erewrite bind_normal by reflexivity.
    replace (is_str (JStr (js "view-docs")) (js "view-docs")) with true
      by (symmetry; apply is_str_true; reflexivity).
    apply (spawn_of_never_throws _ (loadDocuments_never_throws o)). }
  assert (Hact : preserves activeTab (loadDocuments o)) by frame.
  assert (Hmod : preserves modalOpen (loadDocuments o)) by frame.
  split; [|split].
  - intros Hn. apply is_str_false in Hn. unfold onTabClick.
    erewrite bind_normal by reflexivity. now rewrite Hn.
  - intros ->. unfold run. rewrite Hview. cbn [snd].
    rewrite loadDocuments_requests, Hact. split; reflexivity.
  - unfold run, onDocsClick. erewrite bind_normal by reflexivity.
    rewrite Hview. cbn [snd]. rewrite loadDocuments_requests, Hact, Hmod.
    repeat split.
Qed.

Lemma tabs_load_documents_on_view_docs_witness :
  requests (run (onTabClick (JStr (js "add-doc")) network_down) fresh_world) = [] /\
  requests (run (onTabClick (JStr (js "view-docs")) network_down) fresh_world)
    = requests fresh_world ++ [documents_request].
Proof.
  destruct (tabs_load_documents_on_view_docs (JStr (js "add-doc")) network_down fresh_world)
    as (Hother & _ & _).
  destruct (tabs_load_documents_on_view_docs (JStr (js "view-docs")) network_down fresh_world)
    as (_ & Hview & _).
  split.
  - unfold run. rewrite Hother; [reflexivity | vm_compute; discriminate].
  - apply Hview. reflexivity.
Defined.

(* ================================================================== *)
(** ** Voice input: the rest of its behaviour *)
(* ================================================================== *)

Lemma handle_voiceBtn_disabled (host : Host) (ev : Event) :
  preserves voiceBtn_disabled (handle host ev).
Proof. destruct ev; frame. Qed.

Lemma toggleVoiceRecording_unsupported (w : World) :
  recognition w = None ->
  toggleVoiceRecording w =
  (Normal tt,
   set_chatMessages
     (chatMessages w ++ [mkMessage system (js "Assistant") unsupported_text false]) w).
Proof.
  intros Hr. unfold toggleVoiceRecording. erewrite bind_normal by reflexivity.
  rewrite Hr, addMessage_string.
  replace (matches_malayalam (js "Voice recognition is not supported in your browser."))
    with false by (vm_compute; reflexivity).
  reflexivity.
Qed.

(** X17. In a browser without speech recognition no voice session ever
    exists: in every state the page reaches there is no recognition object,
    the voice button is disabled, so that no click reaches
    [toggleVoiceRecording], and no session is active; were
    [toggleVoiceRecording] called all the same, it would only tell the user
    that voice recognition is not supported. *)
Theorem no_voice_without_recognition (host : Host) (w : World) :
  has_webkitSpeechRecognition host = false ->
  reachable host w ->
  recognition w = None /\ voiceBtn_disabled w = true /\
  enabled w VoiceClick = false /\ active_sessions w = 0%nat /\
  toggleVoiceRecording w =
    (Normal tt,
     set_chatMessages
       (chatMessages w ++ [mkMessage system (js "Assistant") unsupported_text false]) w).
Proof.
  intros Hhost Hreach.
  assert (Hinv : recognition w = None /\ voiceBtn_disabled w = true).
  { induction Hreach as [w o_docs o_ping Hw | w ev Hreach [IHr IHd] Hen].
    - destruct (onDOMContentLoaded_recognition host o_docs o_ping w) as [_ Hno].
      destruct (Hno Hhost) as [Hr Hd]. destruct Hw as (_ & _ & Hnone & _).
      split; [now rewrite Hr | exact Hd].
    - split; [|now rewrite handle_voiceBtn_disabled].
      destruct (quiet ev) eqn:Hq; [now rewrite (handle_quiet_recognition host ev Hq)|].
      destruct ev; try discriminate Hq; cbn [handle enabled] in *.
      + now apply setLanguage_without_recognition.
      + rewrite IHd in Hen. discriminate.
      + unfold session_active in Hen. rewrite IHr in Hen. discriminate.
      + unfold session_active in Hen. rewrite IHr in Hen. discriminate. }
  destruct Hinv as [Hr Hd]. destruct (reachable_invariant Hreach) as [Hrec _].
  split; [exact Hr|]. split; [exact Hd|]. split; [cbn; now rewrite Hd|].
  split; [|now apply toggleVoiceRecording_unsupported].
  unfold active_sessions, session_active. now rewrite Hr, Hrec.
Qed.

Lemma no_voice_without_recognition_witness :
  let w := run (handle silent_host PrivacyClick)
             (run (onDOMContentLoaded silent_host network_down network_down) fresh_world) in
  recognition w = None /\ enabled w VoiceClick = false.
Proof.
  intros w.
  assert (Hreach : reachable silent_host w).
  { apply reach_event; [apply reach_loaded|].
    - vm_compute. repeat split.
    - reflexivity. }
  destruct (@no_voice_without_recognition silent_host w eq_refl Hreach) as (Hr & _ & He & _).
  split; assumption.
Defined.

(** X18. A second click that comes too early is not contained: on an idle
    recognition object the voice button starts a session; a further click
    before the browser has announced the start, while [isRecording] is
    still false, calls [start()] again, which throws InvalidStateError out
    of the handler and leaves the page as it is, the session still
    running. *)
Theorem early_second_click_throws (w : World) (r : Recognition) :
  recognition w = Some r -> started r = false -> isRecording w = false ->
  let w1 := run toggleVoiceRecording w in
  result toggleVoiceRecording w = Normal tt /\
  session_active w1 = true /\ isRecording w1 = false /\
  result toggleVoiceRecording w1 = Thrown InvalidStateError /\
  run toggleVoiceRecording w1 = w1.
Proof.
  intros Hr Hs Hi w1.
  assert (E : w1 = set_recognition (Some (mkRecognition (lang r) true)) w)
    by (subst w1; unfold run; now rewrite (toggleVoiceRecording_starts w Hr Hi Hs)).
  assert (Ha : session_active w1 = true) by (rewrite E; reflexivity).
  assert (Hi1 : isRecording w1 = false) by (rewrite E; exact Hi).
  split; [unfold result; now rewrite (toggleVoiceRecording_starts w Hr Hi Hs)|].
  split; [exact Ha|]. split; [exact Hi1|].
  destruct (toggleVoiceRecording_while_active w1 Ha) as (Hsame & [[_ Hrec]|[Hthrow _]]).
  - congruence.
  - split; assumption.
Qed.

Lemma early_second_click_throws_witness :
  let w := run (onDOMContentLoaded blank_host network_down network_down) fresh_world in
  result toggleVoiceRecording (run toggleVoiceRecording w) = Thrown InvalidStateError.
Proof.
  intros w.
  apply (@early_second_click_throws w (mkRecognition (js "en-US") false));
    vm_compute; reflexivity.
Defined.

(** X19. The indicator follows the flag, and only the recognition moves
    them: the page load and every event other than the start and the end
    of the recognition leave both [isRecording] and the 'listening' state
    of the voice button and status line as they are; the start event sets
    both and the end event clears both.  So the two agree after the load
    and after every event whenever they did before. *)
Theorem listening_follows_isRecording (host : Host) (w : World) :
  (forall o_docs o_ping,
     listening (run (onDOMContentLoaded host o_docs o_ping) w) = listening w /\
     isRecording (run (onDOMContentLoaded host o_docs o_ping) w) = isRecording w) /\
  (forall ev, ev <> RecognitionStart -> ev <> RecognitionEnd ->
     listening (run (handle host ev) w) = listening w /\
     isRecording (run (handle host ev) w) = isRecording w) /\
  (listening (run (handle host RecognitionStart) w) = true /\
   isRecording (run (handle host RecognitionStart) w) = true) /\
  (listening (run (handle host RecognitionEnd) w) = false /\
   isRecording (run (handle host RecognitionEnd) w) = false) /\
  (listening w = isRecording w ->
   (forall o_docs o_ping,
      listening (run (onDOMContentLoaded host o_docs o_ping) w)
        = isRecording (run (onDOMContentLoaded host o_docs o_ping) w)) /\
   (forall ev,
      listening (run (handle host ev) w) = isRecording (run (handle host ev) w))).
Proof.
  assert (Hload : forall o_docs o_ping,
    listening (run (onDOMContentLoaded host o_docs o_ping) w) = listening w /\
    isRecording (run (onDOMContentLoaded host o_docs o_ping) w) = isRecording w).
  { intros o_docs o_ping.
    assert (Hl : preserves listening (onDOMContentLoaded host o_docs o_ping)) by frame.
    assert (Hi : preserves isRecording (onDOMContentLoaded host o_docs o_ping)) by frame.
    split; [apply Hl | apply Hi]. }
  assert (Hother : forall ev, ev <> RecognitionStart -> ev <> RecognitionEnd ->
    listening (run (handle host ev) w) = listening w /\
    isRecording (run (handle host ev) w) = isRecording w).
  { intros ev Hs He.
    destruct ev; try congruence;
      match goal with
      | |- listening (run ?m _) = _ /\ _ =>
          let Hl := fresh in let Hi := fresh in
          assert (Hl : preserves listening m) by (cbn [handle]; frame);
          assert (Hi : preserves isRecording m) by (cbn [handle]; frame);
          split; [apply Hl | apply Hi]
      end. }
  assert (Hstart : listening (run (handle host RecognitionStart) w) = true /\
                   isRecording (run (handle host RecognitionStart) w) = true).
  { cbn [handle]. unfold run, recognition_onstart.
    do 2 erewrite bind_normal by reflexivity. rewrite addMessage_string.
    split; reflexivity. }
  assert (Hend : listening (run (handle host RecognitionEnd) w) = false /\
                 isRecording (run (handle host RecognitionEnd) w) = false)
    by (split; reflexivity).
  split; [exact Hload|]. split; [exact Hother|]. split; [exact Hstart|].
  split; [exact Hend|].
  intros Heq. split.
  - intros o_docs o_ping. destruct (Hload o_docs o_ping) as [-> ->]. exact Heq.
  - intros ev.
    destruct ev;
      try (match goal with
           | |- listening (run (handle _ ?e) _) = _ =>
               let H := fresh in
               assert (H : e <> RecognitionStart /\ e <> RecognitionEnd)
                 by (split; discriminate);
               destruct (Hother e (proj1 H) (proj2 H)) as [-> ->]; exact Heq
           end).
    + destruct Hstart as [-> ->]. reflexivity.
    + destruct Hend as [-> ->]. reflexivity.
Qed.

Lemma listening_follows_isRecording_witness :
  listening (run (handle blank_host RecognitionEnd) listening_page)
    = isRecording (run (handle blank_host RecognitionEnd) listening_page) /\
  listening (run (handle blank_host PrivacyClick) listening_page) = listening listening_page.
Proof.
  destruct (listening_follows_isRecording blank_host listening_page)
    as (_ & Hother & _ & _ & Heq).
  split.
  - apply Heq. reflexivity.
  - apply Hother; discriminate.
Defined.

Lemma transcript_timer_run (host : Host) (transcript : jsstring) (o : FetchOutcome)
      (w : World) :
  run (handle host (TimerFires o)) (run (handle host (RecognitionResult transcript)) w)
    = run (sendMessage host o) (set_inputValue transcript w).
Proof.
  cbv [handle run recognition_onresult bind modify snd fst].
  rewrite (spawn_of_never_throws _ (sendMessage_never_throws host o)). reflexivity.
Qed.

(** X20. A recognised transcript is sent as if it had been typed: the
    result event puts it into the input and sets the timer, which is then
    due; when the timer fires, a transcript that is not blank is shown
    trimmed as the user's message and goes to the backend in one request,
    with the current language, and a blank one is dropped without a
    trace. *)
Theorem transcript_is_submitted (host : Host) (transcript : jsstring) (o : FetchOutcome)
        (w : World) :
  let heard := run (handle host (RecognitionResult transcript)) w in
  let sent := run (handle host (TimerFires o)) heard in
  (inputValue heard = transcript /\ enabled heard (TimerFires o) = true /\
   chatMessages heard = chatMessages w /\ requests heard = requests w) /\
  (trim transcript <> [] ->
     requests sent = requests w ++ [query_request (trim transcript) (currentLanguage w)] /\
     exists replies,
       chatMessages sent =
         chatMessages w ++ mkMessage user (js "You") (trim transcript)
                                     (matches_malayalam (trim transcript)) :: replies) /\
  (trim transcript = [] ->
     requests sent = requests w /\ chatMessages sent = chatMessages w /\
     logsContainer sent = logsContainer w).
Proof.
  cbv zeta. split; [repeat split|]. rewrite transcript_timer_run. split.
  - intros Ht. unfold run.
    rewrite sendMessage_run by exact Ht. cbn [snd inputValue set_inputValue].
    destruct (query_end o) as [e|data v|data a]; cbn [after_query].
    + unfold after_query_error, query_issued. cbn. split; [reflexivity|].
      eexists. rewrite <- app_assoc. reflexivity.
    + unfold after_query_error, query_issued. cbn. split; [reflexivity|].
      eexists. rewrite <- !app_assoc. reflexivity.
    + unfold query_issued.
      destruct (truthy (value_of (property data "audio_url")));
        [destruct (template_throws (value_of (property data "audio_url")))
        |destruct (has_speechSynthesis host)]; unfold after_query_error; cbn;
        (split; [reflexivity|]); eexists; rewrite <- !app_assoc; reflexivity.
  - intros Ht. unfold run, sendMessage, bind, gets. cbn [inputValue set_inputValue].
    rewrite Ht. repeat split.
Qed.

Lemma transcript_is_submitted_witness :
  let heard := run (handle blank_host (RecognitionResult (js " library hours "))) listening_page in
  requests (run (handle blank_host (TimerFires network_down)) heard)
    = requests listening_page
      ++ [query_request (trim (js " library hours ")) (currentLanguage listening_page)].
Proof.
  intros heard.
  apply (transcript_is_submitted blank_host (js " library hours ") network_down listening_page).
  vm_compute. discriminate.
Defined.

(* ================================================================== *)
(** ** voiceQuery: the capture variant *)
(* ================================================================== *)




(** X22. A refused microphone leaves no recording behind: when
    [getUserMedia] is rejected, [startMediaRecording] completes normally,
    creates no recorder, leaves [isRecording] and the indicator as they
    were and tells the user that access was denied; when it is granted, one
    more recorder is recording and both are set. *)
Theorem startMediaRecording_outcomes (mic : Completion unit) (w : World) :
  let w' := run (startMediaRecording mic) w in
  result (startMediaRecording mic) w = Normal tt /\
  (forall e, mic = Thrown e ->
     recorders w' = recorders w /\ isRecording w' = isRecording w /\
     listening w' = listening w /\
     chatMessages w' =
       chatMessages w ++ [mkMessage system (js "Assistant") microphone_denied_text false]) /\
  (mic = Normal tt ->
     recorders w' = S (recorders w) /\ isRecording w' = true /\ listening w' = true /\
     chatMessages w' = chatMessages w).
Proof.
  assert (Hd : matches_malayalam
                 (js "Microphone access denied. Please allow microphone permissions.") = false)
    by (vm_compute; reflexivity).
  cbv zeta. unfold result, run, startMediaRecording.
  destruct mic as [[]|e].
  - erewrite try_catch_normal; [|reflexivity]. cbn.
    split; [reflexivity|]. split; [discriminate|]. intros _. repeat split.
  - erewrite try_catch_thrown; [|reflexivity].
    unfold bind, console_error, modify. rewrite addMessage_string, Hd. cbn.
    split; [reflexivity|]. split; [|discriminate]. intros e0 _. repeat split.
Qed.

Lemma startMediaRecording_outcomes_witness :
  recorders (run (startMediaRecording
                    (Thrown (mkError (js "NotAllowedError") (js "Permission denied"))))
                 listening_page) = recorders listening_page.
Proof.
  destruct (startMediaRecording_outcomes
              (Thrown (mkError (js "NotAllowedError") (js "Permission denied")))
              listening_page) as (_ & Hdenied & _).
  apply (Hdenied (mkError (js "NotAllowedError") (js "Permission denied"))). reflexivity.
Defined.

(* ================================================================== *)
(** ** The WebSocket channel *)
(* ================================================================== *)


